(** * The chat page of the AI Engineer Challenge front end

    A shallow embedding of the state handling of [Home] in
    [frontend/app/page.tsx] (the component with the PDF upload, lines
    1-329): the credential check, the submit handler with its
    streamed-reply loop, and the PDF upload handler.

    JavaScript strings are sequences of UTF-16 code units, so [jsstring] is
    a list of code units; [lit] writes an ASCII literal.  The component's
    [useState] cells are the fields of [State].  An [async] handler is
    embedded as one run from call to completion in which no other handler
    is scheduled at its [await] points; what the network answers during the
    run is an argument of the handler, and the requests it sends are
    returned next to the new state.  The functional updates passed to
    [setMessages] are embedded one by one as functions on the transcript,
    so that they can also be studied in any other order. *)

From Stdlib Require Import NArith Lia.
From Stdlib.Strings Require Import String Ascii Byte.
From Stdlib Require Import Decimal DecimalString.
From stdpp Require Import base list.

Set Default Proof Using "Type".
Open Scope N_scope.

(** ** JavaScript strings *)

Definition code_unit := N.
Definition jsstring := list code_unit.

(** An ASCII literal of the source as a [jsstring]. *)
Definition lit (s : string) : jsstring :=
  map Byte.to_N (list_byte_of_string s).

(** [String(n)] for a non-negative integer [n], as in a template literal. *)
Definition numberToString (n : N) : jsstring :=
  lit (NilZero.string_of_uint (N.to_uint n)).

(** [s.startsWith(p)] *)
Fixpoint startsWith (s p : jsstring) : bool :=
  match p, s with
  | [], _ => true
  | _ :: _, [] => false
  | c :: p', d :: s' => (c =? d) && startsWith s' p'
  end.

(** [s.length] *)
Definition jslength (s : jsstring) : N := N.of_nat (length s).

(** ECMAScript WhiteSpace and LineTerminator code points: what
    [String.prototype.trim] strips. *)
Definition isWhiteSpace (c : code_unit) : bool :=
  (c =? 0x0009) || (c =? 0x000B) || (c =? 0x000C) || (c =? 0xFEFF)
  || (c =? 0x0020) || (c =? 0x00A0) || (c =? 0x1680)
  || ((0x2000 <=? c) && (c <=? 0x200A))
  || (c =? 0x202F) || (c =? 0x205F) || (c =? 0x3000)
  || (c =? 0x000A) || (c =? 0x000D) || (c =? 0x2028) || (c =? 0x2029).

Fixpoint trimStart (s : jsstring) : jsstring :=
  match s with
  | [] => []
  | c :: s' => if isWhiteSpace c then trimStart s' else s
  end.

Definition trimEnd (s : jsstring) : jsstring :=
  reverse (trimStart (reverse s)).

(** [s.trim()] *)
Definition trim (s : jsstring) : jsstring := trimEnd (trimStart s).

(** ToBoolean on a string: only the empty string is falsy. *)
Definition truthy (s : jsstring) : bool :=
  match s with [] => false | _ :: _ => true end.

(** ** The credential check *)

(** [validateApiKey], page.tsx lines 20-23. *)
Definition validateApiKey (key : jsstring) : bool :=
  (startsWith key (lit "sk-") || startsWith key (lit "sk-proj-"))
  && (40 <=? jslength key).

(** ** The component state *)

(** An entry of the transcript, [{ role: string; content: string }]. *)
Record Message := mkMessage { role : jsstring; content : jsstring }.

Record File := mkFile { name : jsstring; type : jsstring }.

Record PdfStatus := mkPdfStatus { pdf_loaded : bool; chunks_count : N }.

Inductive ChatMode := regular | rag.

(** The [useState] cells of [Home], and [fileInputRef.current]: [None]
    when no element is attached, otherwise the element's [value]. *)
Record State := mkState {
  apiKey : jsstring;
  messages : list Message;
  inputMessage : jsstring;
  isLoading : bool;
  isValidApiKey : bool;
  pdfFile : option File;
  pdfStatus : PdfStatus;
  isUploading : bool;
  chatMode : ChatMode;
  fileInputRef : option jsstring
}.

Definition initialState : State :=
  mkState [] [] [] false false None (mkPdfStatus false 0) false regular (Some []).

Definition setApiKey (v : jsstring) (st : State) : State :=
  mkState v (messages st) (inputMessage st) (isLoading st) (isValidApiKey st)
    (pdfFile st) (pdfStatus st) (isUploading st) (chatMode st) (fileInputRef st).

Definition setMessages (f : list Message -> list Message) (st : State) : State :=
  mkState (apiKey st) (f (messages st)) (inputMessage st) (isLoading st)
    (isValidApiKey st) (pdfFile st) (pdfStatus st) (isUploading st) (chatMode st)
    (fileInputRef st).

Definition setInputMessage (v : jsstring) (st : State) : State :=
  mkState (apiKey st) (messages st) v (isLoading st) (isValidApiKey st)
    (pdfFile st) (pdfStatus st) (isUploading st) (chatMode st) (fileInputRef st).

Definition setIsLoading (v : bool) (st : State) : State :=
  mkState (apiKey st) (messages st) (inputMessage st) v (isValidApiKey st)
    (pdfFile st) (pdfStatus st) (isUploading st) (chatMode st) (fileInputRef st).

Definition setIsValidApiKey (v : bool) (st : State) : State :=
  mkState (apiKey st) (messages st) (inputMessage st) (isLoading st) v
    (pdfFile st) (pdfStatus st) (isUploading st) (chatMode st) (fileInputRef st).

Definition setPdfFile (v : option File) (st : State) : State :=
  mkState (apiKey st) (messages st) (inputMessage st) (isLoading st)
    (isValidApiKey st) v (pdfStatus st) (isUploading st) (chatMode st)
    (fileInputRef st).

Definition setPdfStatus (v : PdfStatus) (st : State) : State :=
  mkState (apiKey st) (messages st) (inputMessage st) (isLoading st)
    (isValidApiKey st) (pdfFile st) v (isUploading st) (chatMode st)
    (fileInputRef st).

Definition setIsUploading (v : bool) (st : State) : State :=
  mkState (apiKey st) (messages st) (inputMessage st) (isLoading st)
    (isValidApiKey st) (pdfFile st) (pdfStatus st) v (chatMode st)
    (fileInputRef st).

Definition setChatMode (v : ChatMode) (st : State) : State :=
  mkState (apiKey st) (messages st) (inputMessage st) (isLoading st)
    (isValidApiKey st) (pdfFile st) (pdfStatus st) (isUploading st) v
    (fileInputRef st).

(** [if (fileInputRef.current) fileInputRef.current.value = ''] *)
Definition clearFileInput (st : State) : State :=
  mkState (apiKey st) (messages st) (inputMessage st) (isLoading st)
    (isValidApiKey st) (pdfFile st) (pdfStatus st) (isUploading st) (chatMode st)
    (match fileInputRef st with Some _ => Some [] | None => None end).

(** ** The network, as the handlers see it *)

(** A value caught by [catch (error)]: an [Error] instance with its
    [message], or anything else. *)
Inductive Thrown := ErrorObject (message : jsstring) | OtherValue.

(** [error instanceof Error ? error.message : fallback] *)
Definition messageOr (fallback : jsstring) (t : Thrown) : jsstring :=
  match t with ErrorObject m => m | OtherValue => fallback end.

Definition Uint8Array := list byte.

(** How the sequence of [reader.read()] results ends: [{done: true}], or a
    rejected read. *)
Inductive ReadEnd := Done | ReadRejected (t : Thrown).

(** [response.body]: the values read before the end, and the end. *)
Record Body := mkBody { chunks : list Uint8Array; ending : ReadEnd }.

(** What [response.json()] gives as far as the handlers look at it: the
    promise rejects; or it resolves to [null], on which reading [.detail]
    raises a TypeError with the engine's message; or it resolves to a value
    [v], with [detail] the string form of [v.detail] when that is truthy and
    [None] when it is missing or falsy. *)
Inductive Json :=
| JsonRejected (t : Thrown)
| JsonNull (typeError : jsstring)
| JsonValue (detail : option jsstring).

Record Response := mkResponse { status : N; json : Json; body : option Body }.

(** [response.ok]: the status is in the range 200-299. *)
Definition ok (r : Response) : bool := (200 <=? status r) && (status r <=? 299).

(** The outcome of [await fetch(...)]. *)
Inductive FetchResult := Rejected (t : Thrown) | Resolved (response : Response).

(** The outcome of the [fetch] of [/api/pdf-status] in [checkPdfStatus]:
    [Some s] when the response is ok and its JSON is the status [s], [None]
    when the call fails, is not ok or has no JSON. *)
Definition PdfStatusResult := option PdfStatus.

Inductive Request :=
| ChatRequest (developer_message user_message api_key : jsstring)
| RagChatRequest (user_message api_key : jsstring)
| UploadPdfRequest (file : File) (api_key : jsstring)
| PdfStatusRequest.

(** ** The updates of the transcript *)

(** [prev => [...prev, m]] *)
Definition appendMessage (m : Message) (prev : list Message) : list Message :=
  prev ++ [m].

(** The entry appended by the [catch] of [handleSubmit], lines 187-190. *)
Definition errorEntry (t : Thrown) : Message :=
  mkMessage (lit "assistant")
    (lit "Error: " ++ messageOr (lit "Failed to process your request") t).

(** The entry appended after a successful upload, lines 87-90. *)
Definition uploadedEntry (file : File) : Message :=
  mkMessage (lit "assistant")
    (lit "PDF " ++ [0x22] ++ name file ++ [0x22]
     ++ lit " uploaded and processed successfully! You can now ask questions about the document.").

(** The entry appended by the [catch] of [handleFileUpload], lines 97-100. *)
Definition uploadErrorEntry (t : Thrown) : Message :=
  mkMessage (lit "assistant")
    (lit "Error uploading PDF: " ++ messageOr (lit "Unknown error") t).

(** The functional update of lines 174-183.  [newMessages] is a copy of
    [prev] that shares its entries; [lastMessage] is [undefined] on an empty
    transcript, and reading its [role] then raises a TypeError inside the
    update: [None], no next transcript.  Otherwise the last entry gets the
    new content (its role stays), or a new entry is appended. *)
Definition streamUpdater (assistantMessage : jsstring) (prev : list Message)
  : option (list Message) :=
  let newMessages := prev in
  let i := (length newMessages - 1)%nat in
  match newMessages !! i with
  | None => None
  | Some lastMessage =>
      if decide (role lastMessage = lit "assistant") then
        Some (<[i := mkMessage (role lastMessage) assistantMessage]> newMessages)
      else
        Some (newMessages ++ [mkMessage (lit "assistant") assistantMessage])
  end.

(** ** The handlers *)

(** [handleApiKeyChange], lines 25-29. *)
Definition handleApiKeyChange (newKey : jsstring) (st : State) : State :=
  setIsValidApiKey (validateApiKey newKey) (setApiKey newKey st).

(** [handleFileChange], lines 59-66; [file] is [e.target.files?.[0]].  The
    [alert] of the other branch touches no state. *)
Definition handleFileChange (file : option File) (st : State) : State :=
  match file with
  | Some f =>
      if decide (type f = lit "application/pdf") then setPdfFile (Some f) st
      else st
  | None => st
  end.

(** [clearChat], lines 196-198. *)
Definition clearChat (st : State) : State := setMessages (fun _ => []) st.

(** [checkPdfStatus], lines 44-57: one request, and any failure is
    swallowed by its own [catch]. *)
Definition checkPdfStatus (net : PdfStatusResult) (st : State)
  : State * list Request :=
  match net with
  | Some s =>
      let st := setPdfStatus s st in
      (if pdf_loaded s then setChatMode rag st else st, [PdfStatusRequest])
  | None => (st, [PdfStatusRequest])
  end.

(** The [try] block of [handleFileUpload], lines 73-94, after the request
    was sent: the state it leaves, the further requests, and the value it
    throws, if any. *)
Definition uploadTry (file : File) (net : FetchResult) (statusNet : PdfStatusResult)
    (st : State) : State * list Request * option Thrown :=
  match net with
  | Rejected t => (st, [], Some t)
  | Resolved response =>
      if ok response then
        match json response with
        | JsonRejected t => (st, [], Some t)
        | _ =>
            let st := setChatMode rag st in
            let '(st, reqs) := checkPdfStatus statusNet st in
            (setMessages (appendMessage (uploadedEntry file)) st, reqs, None)
        end
      else
        match json response with
        | JsonRejected t => (st, [], Some t)
        | JsonNull typeError => (st, [], Some (ErrorObject typeError))
        | JsonValue detail =>
            (st, [], Some (ErrorObject (default (lit "Failed to upload PDF") detail)))
        end
  end.

(** [handleFileUpload], lines 68-108. *)
Definition handleFileUpload (net : FetchResult) (statusNet : PdfStatusResult)
    (st : State) : State * list Request :=
  match pdfFile st with
  | None => (st, [])
  | Some file =>
      if negb (isValidApiKey st) then (st, [])
      else
        let st := setIsUploading true st in
        let request := UploadPdfRequest file (apiKey st) in
        let '(st, reqs, thrown) := uploadTry file net statusNet st in
        let st :=
          match thrown with
          | Some error => setMessages (appendMessage (uploadErrorEntry error)) st
          | None => st
          end in
        let st := clearFileInput (setPdfFile None (setIsUploading false st)) in
        (st, request :: reqs)
  end.

Section Assembler.

(** [new TextDecoder().decode(value)]: a fresh decoder for every chunk, so
    the text of a chunk is a function of that chunk alone. *)
Variable decode : Uint8Array -> jsstring.

(** One turn of the [while] loop of lines 168-184 on a value that was read:
    the accumulated [assistantMessage] and the transcript, before and
    after. *)
Definition chunkStep (value : Uint8Array) (s : jsstring * list Message)
  : option (jsstring * list Message) :=
  let text := decode value in
  let assistantMessage := s.1 ++ text in
  msgs ← streamUpdater assistantMessage s.2;
  Some (assistantMessage, msgs).

(** The loop over the values read before the end of the body. *)
Fixpoint readLoop (values : list Uint8Array) (s : jsstring * list Message)
  : option (jsstring * list Message) :=
  match values with
  | [] => Some s
  | value :: rest => s' ← chunkStep value s; readLoop rest s'
  end.

(** The [try] block of [handleSubmit], lines 156-184, after the request was
    sent: the transcript it leaves and the value it throws, if any; [None]
    when an update of the transcript raises. *)
Definition chatTry (net : FetchResult) (msgs : list Message)
  : option (list Message * option Thrown) :=
  match net with
  | Rejected t => Some (msgs, Some t)
  | Resolved response =>
      if negb (ok response) then
        let fallback :=
          lit "Server responded with status: " ++ numberToString (status response) in
        match json response with
        | JsonRejected _ => Some (msgs, Some (ErrorObject fallback))
        | JsonNull typeError => Some (msgs, Some (ErrorObject typeError))
        | JsonValue detail => Some (msgs, Some (ErrorObject (default fallback detail)))
        end
      else
        match body response with
        | None => Some (msgs, Some (ErrorObject (lit "No reader available")))
        | Some b =>
            s ← readLoop (chunks b) ([], msgs);
            Some (s.2, match ending b with Done => None | ReadRejected t => Some t end)
        end
  end.

(** [handleSubmit], lines 110-194.  The updates that the [try] block and
    the [catch] pass to [setMessages] are applied to the transcript in the
    order of the calls; [e.preventDefault()] touches no state. *)
Definition handleSubmit (net : FetchResult) (st : State)
  : option (State * list Request) :=
  if negb (truthy (trim (inputMessage st))) || negb (isValidApiKey st)
  then Some (st, [])
  else
    let newMessage := mkMessage (lit "user") (inputMessage st) in
    let request :=
      match chatMode st with
      | rag => RagChatRequest (inputMessage st) (apiKey st)
      | regular =>
          ChatRequest (lit "You are a helpful AI assistant.") (inputMessage st)
            (apiKey st)
      end in
    let st1 :=
      setIsLoading true (setInputMessage [] (setMessages (appendMessage newMessage) st)) in
    '(msgs, thrown) ← chatTry net (messages st1);
    let msgs :=
      match thrown with
      | Some error => appendMessage (errorEntry error) msgs
      | None => msgs
      end in
    Some (setIsLoading false (setMessages (fun _ => msgs) st1), [request]).

End Assembler.

(** A decoder for the examples: on bytes below 128, UTF-8 decoding gives
    one code unit per byte. *)
Definition decodeAscii (value : Uint8Array) : jsstring := map Byte.to_N value.

(** The bytes of an ASCII literal. *)
Definition bytes (s : string) : Uint8Array := list_byte_of_string s.

(** The text of a sequence of chunks: the decoded chunks, in order. *)
Definition textOf (decode : Uint8Array -> jsstring) (values : list Uint8Array)
  : jsstring :=
  concat (map decode values).

(** ** The updates and the events, as data *)

(** The functional updates that the component passes to [setMessages], in
    the order of the source: line 115, lines 174-183, line 187, line 87,
    line 97, line 197. *)
Inductive Update :=
| UserAppend (text : jsstring)
| StreamUpdate (assistantMessage : jsstring)
| ErrorAppend (t : Thrown)
| UploadedAppend (file : File)
| UploadErrorAppend (t : Thrown)
| Clear.

Definition applyUpdate (u : Update) (prev : list Message) : option (list Message) :=
  match u with
  | UserAppend text => Some (appendMessage (mkMessage (lit "user") text) prev)
  | StreamUpdate assistantMessage => streamUpdater assistantMessage prev
  | ErrorAppend t => Some (appendMessage (errorEntry t) prev)
  | UploadedAppend file => Some (appendMessage (uploadedEntry file) prev)
  | UploadErrorAppend t => Some (appendMessage (uploadErrorEntry t) prev)
  | Clear => Some []
  end.

(** What can happen to the mounted component: the effect that runs
    [checkPdfStatus] on mount, and the event handlers of the page. *)
Inductive Event :=
| Mount (statusNet : PdfStatusResult)
| ApiKeyChange (newKey : jsstring)
| InputChange (value : jsstring)
| FileChange (file : option File)
| FileUpload (net : FetchResult) (statusNet : PdfStatusResult)
| Submit (net : FetchResult)
| SelectChatMode (mode : ChatMode)
| ClearChat.

Definition handle (decode : Uint8Array -> jsstring) (ev : Event) (st : State)
  : option State :=
  match ev with
  | Mount statusNet => Some (checkPdfStatus statusNet st).1
  | ApiKeyChange newKey => Some (handleApiKeyChange newKey st)
  | InputChange value => Some (setInputMessage value st)
  | FileChange file => Some (handleFileChange file st)
  | FileUpload net statusNet => Some (handleFileUpload net statusNet st).1
  | Submit net => fst <$> handleSubmit decode net st
  | SelectChatMode mode => Some (setChatMode mode st)
  | ClearChat => Some (clearChat st)
  end.

(** The states of the component after a sequence of events. *)
Fixpoint run (decode : Uint8Array -> jsstring) (evs : list Event) (st : State)
  : option State :=
  match evs with
  | [] => Some st
  | ev :: evs' => st' ← handle decode ev st; run decode evs' st'
  end.

(** The roles of the data model. *)
Definition roleOk (m : Message) : bool :=
  bool_decide (role m = lit "user") || bool_decide (role m = lit "assistant").

Definition rolesOk (msgs : list Message) : bool := forallb roleOk msgs.

(** The rule for one chunk in the words of the specification, to compare
    with [streamUpdater]: [ownsLast] tells whether the last entry belongs to
    the current session.  The last entry is replaced when it exists, has
    role assistant and belongs to the session; otherwise an entry is
    appended. *)
Definition specUpdater (ownsLast : bool) (acc : jsstring) (prev : list Message)
  : list Message :=
  match last prev with
  | Some lastMessage =>
      if bool_decide (role lastMessage = lit "assistant") && ownsLast
      then <[(length prev - 1)%nat := mkMessage (role lastMessage) acc]> prev
      else prev ++ [mkMessage (lit "assistant") acc]
  | None => prev ++ [mkMessage (lit "assistant") acc]
  end.

(** The request that [handleSubmit] sends from a state. *)
Definition chatRequest (st : State) : Request :=
  match chatMode st with
  | rag => RagChatRequest (inputMessage st) (apiKey st)
  | regular =>
      ChatRequest (lit "You are a helpful AI assistant.") (inputMessage st) (apiKey st)
  end.

(** A string of whitespace only (the empty string is one). *)
Definition blank (s : jsstring) : bool := forallb isWhiteSpace s.

(** The failures before any chunk is read: [fetch] rejects, the status is
    not in 200-299, or the response has no body. *)
Definition failsBeforeStreaming (net : FetchResult) : bool :=
  match net with
  | Rejected _ => true
  | Resolved response =>
      negb (ok response) || match body response with None => true | Some _ => false end
  end.

(** A sequence of updates in the order in which React applies them; an
    update that raises leaves no transcript. *)
Fixpoint applyUpdates (us : list Update) (prev : list Message)
  : option (list Message) :=
  match us with
  | [] => Some prev
  | u :: us' => next ← applyUpdate u prev; applyUpdates us' next
  end.

(** The updates that the stream loop queues for the values read, from the
    accumulated text [acc]. *)
Fixpoint streamUpdates (decode : Uint8Array -> jsstring) (acc : jsstring)
    (values : list Uint8Array) : list Update :=
  match values with
  | [] => []
  | value :: rest =>
      let acc := acc ++ decode value in
      StreamUpdate acc :: streamUpdates decode acc rest
  end.

(** The flag [isValidApiKey] is the check of the stored key. *)
Definition keyChecked (st : State) : Prop :=
  isValidApiKey st = validateApiKey (apiKey st).

(** ** Data for the examples *)

Definition demoKey : jsstring :=
  lit "sk-proj-0123456789012345678901234567890123456789".

(** A state with a valid key and the input "hi". *)
Definition demoState : State :=
  setInputMessage (lit "hi") (handleApiKeyChange demoKey initialState).

(** A response with status 200 that streams [values] and ends with [fin]. *)
Definition streamOf (values : list Uint8Array) (fin : ReadEnd) : Response :=
  mkResponse 200 (JsonValue None) (Some (mkBody values fin)).

(** A response with status 401 whose body is not JSON. *)
Definition unauthorized : Response :=
  mkResponse 401 (JsonRejected (ErrorObject (lit "Unexpected token"))) None.

Definition demoFile : File := mkFile (lit "a.pdf") (lit "application/pdf").

(** A transcript in which an upload that was under way when the user
    submitted "q" has reported its failure before the first chunk of the
    reply: the updates of line 115 and line 97, in this order. *)
Definition uploadFailedMeanwhile : list Message :=
  [mkMessage (lit "user") (lit "q"); uploadErrorEntry (ErrorObject (lit "boom"))].

(** ** What the page renders from the state *)

(** The hint under the key field, line 219: [apiKey && !isValidApiKey]. *)
Definition keyErrorShown (st : State) : bool :=
  truthy (apiKey st) && negb (isValidApiKey st).

(** [disabled] of the upload button, line 237. *)
Definition uploadDisabled (st : State) : bool :=
  match pdfFile st with None => true | Some _ => false end
  || negb (isValidApiKey st) || isUploading st.

(** [disabled] of the submit button, line 320. *)
Definition submitDisabled (st : State) : bool :=
  negb (isValidApiKey st) || isLoading st || negb (truthy (trim (inputMessage st))).

(** ** The earlier page *)

(** The requests of the earlier [handleSubmit] (lines 361-439, and again
    533-611 with absolute URLs): the probe of [/api/health], and the call
    of [/api/chat]. *)
Inductive ProbedRequest := HealthRequest | ChatCall (r : Request).

(** The earlier [handleSubmit]: the same guard, the same updates and the
    same stream loop, but the [try] block first fetches [/api/health] and
    throws when that response is not ok; the chat call has no mode. *)
Definition handleSubmitProbed (decode : Uint8Array -> jsstring)
    (healthNet net : FetchResult) (st : State)
  : option (State * list ProbedRequest) :=
  if negb (truthy (trim (inputMessage st))) || negb (isValidApiKey st)
  then Some (st, [])
  else
    let newMessage := mkMessage (lit "user") (inputMessage st) in
    let request :=
      ChatRequest (lit "You are a helpful AI assistant.") (inputMessage st) (apiKey st) in
    let st1 :=
      setIsLoading true (setInputMessage [] (setMessages (appendMessage newMessage) st)) in
    '(msgs, thrown, reqs) ←
      match healthNet with
      | Rejected t => Some (messages st1, Some t, [HealthRequest])
      | Resolved healthCheck =>
          if negb (ok healthCheck) then
            Some (messages st1,
                  Some (ErrorObject (lit "Backend server is not responding")),
                  [HealthRequest])
          else
            r ← chatTry decode net (messages st1);
            Some (r.1, r.2, [HealthRequest; ChatCall request])
      end;
    let msgs :=
      match thrown with
      | Some error => appendMessage (errorEntry error) msgs
      | None => msgs
      end in
    Some (setIsLoading false (setMessages (fun _ => msgs) st1), reqs).

(** The upload went through: the response is ok and its JSON was read. *)
Definition uploadSucceeds (net : FetchResult) : bool :=
  match net with
  | Rejected _ => false
  | Resolved response =>
      ok response
      && match json response with JsonRejected _ => false | _ => true end
  end.

(** The probe of [/api/health] failed: the call was rejected, or its
    response is not ok. *)
Definition probeFails (healthNet : FetchResult) : bool :=
  match healthNet with
  | Rejected _ => true
  | Resolved healthCheck => negb (ok healthCheck)
  end.

(** The selected file, when there is one, was accepted by
    [handleFileChange]. *)
Definition pdfSelected (st : State) : Prop :=
  forall f, pdfFile st = Some f -> type f = lit "application/pdf".

(** An event other than the two mode buttons. *)
Definition notModeButton (ev : Event) : bool :=
  match ev with SelectChatMode _ => false | _ => true end.

(** An event other than "Clear Chat". *)
Definition notClearChat (ev : Event) : bool :=
  match ev with ClearChat => false | _ => true end.

(** ** The strings *)

Example validateApiKey_short : validateApiKey (lit "sk-abc") = false.
Proof. reflexivity. Qed.

Example validateApiKey_long :
  validateApiKey (lit "sk-proj-0123456789012345678901234567890123456789") = true.
Proof. reflexivity. Qed.

Example trim_blank : trim (lit "  ") = [].
Proof. reflexivity. Qed.

Example trim_inner : trim (lit "  a b ") = lit "a b".
Proof. reflexivity. Qed.

Example numberToString_401 : numberToString 401 = lit "401".
Proof. reflexivity. Qed.

Lemma trimStart_blank s : blank s = true -> trimStart s = [].
Proof.
  induction s as [|c s IH]; simpl; [done|].
  intros [Hc Hs]%andb_prop. rewrite Hc. auto.
Qed.

Lemma trim_blank_nil s : blank s = true -> trim s = [].
Proof.
  intros H. unfold trim, trimEnd. rewrite (trimStart_blank s H). reflexivity.
Qed.

Lemma trimStart_nil_blank s : trimStart s = [] -> blank s = true.
Proof.
  induction s as [|c s IH]; simpl; [done|].
  destruct (isWhiteSpace c); [auto|discriminate].
Qed.

Lemma trim_nil_blank s : trim s = [] -> blank s = true.
Proof.
  unfold trim, trimEnd. intros H.
  apply (f_equal reverse) in H. rewrite reverse_involutive, reverse_nil in H.
  apply trimStart_nil_blank in H.
  destruct (blank s) eqn:Hs; [done|].
  (* a non-blank string keeps its first non-blank unit through trimStart *)
  exfalso. revert H Hs. clear. induction s as [|c s IH]; simpl; [done|].
  destruct (isWhiteSpace c) eqn:Hc; simpl; [auto|].
  intros H _. unfold blank in H. rewrite reverse_cons, forallb_app in H.
  simpl in H. rewrite Hc in H. rewrite andb_false_r in H. done.
Qed.

Lemma startsWith_proj_sk s :
  startsWith s (lit "sk-proj-") = true -> startsWith s (lit "sk-") = true.
Proof.
  change (lit "sk-proj-") with (lit "sk-" ++ lit "proj-").
  generalize (lit "proj-"). generalize (lit "sk-"). intros p q. revert s.
  induction p as [|c p IH]; intros [|d s]; simpl; try done.
  intros [Hc Hs]%andb_prop. rewrite Hc. simpl. eauto.
Qed.

(** ** One chunk *)

Lemma streamUpdater_snoc acc init lastMessage :
  streamUpdater acc (init ++ [lastMessage]) =
  Some (if decide (role lastMessage = lit "assistant")
        then init ++ [mkMessage (role lastMessage) acc]
        else init ++ [lastMessage; mkMessage (lit "assistant") acc]).
Proof.
  unfold streamUpdater.
  replace (length (init ++ [lastMessage]) - 1)%nat with (length init + 0)%nat
    by (rewrite length_app; simpl; lia).
  rewrite lookup_app_r by lia.
  replace (length init + 0 - length init)%nat with 0%nat by lia.
  cbn [lookup list_lookup]. rewrite insert_app_r. cbn [insert list_insert].
  destruct (decide _); [done|]. by rewrite <- app_assoc.
Qed.

Lemma streamUpdater_nil acc : streamUpdater acc [] = None.
Proof. reflexivity. Qed.

Lemma streamUpdater_is_Some acc prev :
  prev <> [] -> is_Some (streamUpdater acc prev).
Proof.
  destruct (decide (prev = [])) as [->|Hne]; [done|]. intros _.
  destruct (exists_last Hne) as (init & lastMessage & ->).
  rewrite streamUpdater_snoc. eauto.
Qed.

Section AssemblerFacts.

Variable decode : Uint8Array -> jsstring.

Lemma chunkStep_snoc value acc init lastMessage :
  chunkStep decode value (acc, init ++ [lastMessage]) =
  Some (acc ++ decode value,
        if decide (role lastMessage = lit "assistant")
        then init ++ [mkMessage (role lastMessage) (acc ++ decode value)]
        else init ++ [lastMessage; mkMessage (lit "assistant") (acc ++ decode value)]).
Proof. unfold chunkStep. simpl. by rewrite streamUpdater_snoc. Qed.

(** Once the last entry is an assistant entry, the loop keeps replacing
    its content. *)
Lemma readLoop_open values : forall acc init c,
  readLoop decode values (acc, init ++ [mkMessage (lit "assistant") c]) =
  Some (acc ++ textOf decode values,
        init ++ [mkMessage (lit "assistant")
                   (match values with [] => c | _ => acc ++ textOf decode values end)]).
Proof.
  induction values as [|value rest IH]; intros acc init c.
  - simpl. by rewrite app_nil_r.
  - cbn [readLoop]. rewrite chunkStep_snoc. cbn [mbind option_bind role].
    rewrite decide_True by done. rewrite IH.
    unfold textOf. cbn [map concat]. rewrite !app_assoc.
    destruct rest; [|done]. cbn [map concat]. by rewrite app_nil_r.
Qed.

(** From a transcript that ends with another entry, the first chunk
    appends and the following ones replace. *)
Lemma readLoop_closed values init lastMessage :
  role lastMessage <> lit "assistant" ->
  readLoop decode values ([], init ++ [lastMessage]) =
  Some (textOf decode values,
        match values with
        | [] => init ++ [lastMessage]
        | _ => init ++ [lastMessage; mkMessage (lit "assistant") (textOf decode values)]
        end).
Proof.
  intros Hrole. destruct values as [|value rest]; [done|].
  cbn [readLoop]. rewrite chunkStep_snoc. cbn [mbind option_bind].
  rewrite decide_False by done.
  change (init ++ [lastMessage; ?m]) with (init ++ [lastMessage] ++ [m]).
  rewrite !app_assoc, readLoop_open.
  unfold textOf. cbn [map concat app].
  destruct rest; [|done]. cbn [map concat]. by rewrite app_nil_r.
Qed.

Lemma user_not_assistant : lit "user" <> lit "assistant".
Proof. discriminate. Qed.

(** The stream loop of a submission never raises: the transcript it starts
    from ends with the user entry of line 115. *)
Lemma readLoop_submit values msgs text :
  readLoop decode values ([], appendMessage (mkMessage (lit "user") text) msgs) =
  Some (textOf decode values,
        match values with
        | [] => msgs ++ [mkMessage (lit "user") text]
        | _ => msgs ++ [mkMessage (lit "user") text;
                        mkMessage (lit "assistant") (textOf decode values)]
        end).
Proof. apply readLoop_closed. simpl. apply user_not_assistant. Qed.

(** The loop, seen as the sequence of updates it queues. *)
Lemma readLoop_as_updates values : forall acc msgs,
  snd <$> readLoop decode values (acc, msgs)
  = applyUpdates (streamUpdates decode acc values) msgs.
Proof.
  induction values as [|value rest IH]; intros acc msgs; [done|].
  cbn [readLoop streamUpdates applyUpdates applyUpdate]. unfold chunkStep.
  cbn [fst snd]. destruct (streamUpdater _ _) as [next|]; [|done].
  cbn [mbind option_bind]. apply IH.
Qed.

(** [handleSubmit] past its guard, with the [try] block unfolded. *)
Lemma handleSubmit_accepted net st :
  truthy (trim (inputMessage st)) = true ->
  isValidApiKey st = true ->
  handleSubmit decode net st =
  (r ← chatTry decode net (messages st ++ [mkMessage (lit "user") (inputMessage st)]);
   Some (setIsLoading false
           (setMessages
              (fun _ => match r.2 with
                        | Some error => r.1 ++ [errorEntry error]
                        | None => r.1
                        end)
              (setIsLoading true
                 (setInputMessage []
                    (setMessages (appendMessage (mkMessage (lit "user") (inputMessage st)))
                       st)))),
         [chatRequest st])).
Proof.
  intros Hin Hkey. unfold handleSubmit. rewrite Hin, Hkey. cbn [negb orb].
  cbn [messages setIsLoading setInputMessage setMessages]. unfold appendMessage.
  destruct (chatTry _ _ _) as [[msgs thrown]|]; [|done].
  cbn [mbind option_bind fst snd]. unfold chatRequest. done.
Qed.

Lemma handleSubmit_rejected net st :
  truthy (trim (inputMessage st)) = false \/ isValidApiKey st = false ->
  handleSubmit decode net st = Some (st, []).
Proof.
  intros H. unfold handleSubmit.
  replace (negb (truthy (trim (inputMessage st))) || negb (isValidApiKey st))
    with true; [done|].
  destruct H as [-> | ->]; [done|]. by rewrite orb_true_r.
Qed.

(** The [try] block on a body, from the transcript of a submission. *)
Lemma chatTry_stream response b msgs text :
  ok response = true ->
  body response = Some b ->
  chatTry decode (Resolved response) (msgs ++ [mkMessage (lit "user") text]) =
  Some (match chunks b with
        | [] => msgs ++ [mkMessage (lit "user") text]
        | _ => msgs ++ [mkMessage (lit "user") text;
                        mkMessage (lit "assistant") (textOf decode (chunks b))]
        end,
        match ending b with Done => None | ReadRejected t => Some t end).
Proof.
  intros Hok Hbody. unfold chatTry. rewrite Hok, Hbody. cbn [negb].
  change (msgs ++ [mkMessage (lit "user") text])
    with (appendMessage (mkMessage (lit "user") text) msgs).
  rewrite readLoop_submit. done.
Qed.

End AssemblerFacts.

(** ** Submissions *)

Section Submissions.

Variable decode : Uint8Array -> jsstring.

(** The state after an accepted submission whose [try] block left the
    transcript [msgs]. *)
Lemma handleSubmit_stream response b st :
  truthy (trim (inputMessage st)) = true ->
  isValidApiKey st = true ->
  ok response = true ->
  body response = Some b ->
  exists st',
    handleSubmit decode (Resolved response) st = Some (st', [chatRequest st])
    /\ messages st' =
       messages st ++ [mkMessage (lit "user") (inputMessage st)]
       ++ match chunks b with
          | [] => []
          | _ => [mkMessage (lit "assistant") (textOf decode (chunks b))]
          end
       ++ match ending b with Done => [] | ReadRejected t => [errorEntry t] end.
Proof.
  intros Hin Hkey Hok Hbody.
  rewrite (handleSubmit_accepted decode _ _ Hin Hkey).
  rewrite (chatTry_stream decode response b _ _ Hok Hbody).
  cbn [mbind option_bind fst snd]. eexists. split; [reflexivity|].
  cbn [messages setIsLoading setMessages].
  destruct (chunks b), (ending b); cbn [app]; rewrite <- ?app_assoc; done.
Qed.

(** C1: in a submission whose response streams the chunks C1..Cn (n at
    least 1) and then ends, the transcript gains the user entry and one
    assistant entry whose content is the text of C1, ..., Cn in order; a
    second chunk sequence with the same total text gives the same
    transcript; and chunks that decode to "Hel", "lo, ", "world!" give the
    content "Hello, world!". *)
Theorem handleSubmit_concatenates response b response' b' st :
  truthy (trim (inputMessage st)) = true ->
  isValidApiKey st = true ->
  ok response = true -> body response = Some b ->
  ending b = Done -> chunks b <> [] ->
  ok response' = true -> body response' = Some b' ->
  ending b' = Done -> chunks b' <> [] ->
  exists st' st'',
    handleSubmit decode (Resolved response) st = Some (st', [chatRequest st])
    /\ handleSubmit decode (Resolved response') st = Some (st'', [chatRequest st])
    /\ messages st' =
       messages st ++ [mkMessage (lit "user") (inputMessage st);
                       mkMessage (lit "assistant") (concat (map decode (chunks b)))]
    /\ (concat (map decode (chunks b')) = concat (map decode (chunks b)) ->
        messages st'' = messages st')
    /\ (map decode (chunks b) = [lit "Hel"; lit "lo, "; lit "world!"] ->
        messages st' =
        messages st ++ [mkMessage (lit "user") (inputMessage st);
                        mkMessage (lit "assistant") (lit "Hello, world!")]).
Proof.
  intros Hin Hkey Hok Hbody Hend Hne Hok' Hbody' Hend' Hne'.
  destruct (handleSubmit_stream response b st Hin Hkey Hok Hbody) as (st' & Hrun & Hm).
  destruct (handleSubmit_stream response' b' st Hin Hkey Hok' Hbody')
    as (st'' & Hrun' & Hm').
  rewrite Hend in Hm. rewrite Hend' in Hm'. unfold textOf in Hm, Hm'.
  destruct (chunks b) as [|v vs] eqn:Hc; [done|].
  destruct (chunks b') as [|v' vs'] eqn:Hc'; [done|].
  rewrite app_nil_r in Hm, Hm'.
  exists st', st''. repeat split; try done.
  - intros Heq. by rewrite Hm, Hm', Heq.
  - intros Hd. by rewrite Hm, Hd.
Qed.

(** C3: when the read of the body is rejected after k chunks (k at least
    1), the transcript gains the user entry, one assistant entry with the
    text of the k chunks, and after it one error entry. *)
Theorem handleSubmit_midstream_failure response b t st :
  truthy (trim (inputMessage st)) = true ->
  isValidApiKey st = true ->
  ok response = true -> body response = Some b ->
  ending b = ReadRejected t -> chunks b <> [] ->
  exists st',
    handleSubmit decode (Resolved response) st = Some (st', [chatRequest st])
    /\ messages st' =
       messages st ++ [mkMessage (lit "user") (inputMessage st);
                       mkMessage (lit "assistant") (concat (map decode (chunks b)));
                       mkMessage (lit "assistant")
                         (lit "Error: "
                          ++ messageOr (lit "Failed to process your request") t)].
Proof.
  intros Hin Hkey Hok Hbody Hend Hne.
  destruct (handleSubmit_stream response b st Hin Hkey Hok Hbody) as (st' & Hrun & Hm).
  rewrite Hend in Hm. exists st'. split; [done|].
  destruct (chunks b); [done|]. exact Hm.
Qed.

(** C4: a submission that reaches the stream loop creates at most one
    assistant entry from the chunks, however many there are, and none when
    no chunk arrives before the end or the failure: the transcript is the
    old one, the user entry, the streamed entries (at most one) and the
    error entry of a failure. *)
Theorem handleSubmit_one_entry response b st :
  truthy (trim (inputMessage st)) = true ->
  isValidApiKey st = true ->
  ok response = true -> body response = Some b ->
  exists st' streamed,
    handleSubmit decode (Resolved response) st = Some (st', [chatRequest st])
    /\ messages st' =
       messages st ++ [mkMessage (lit "user") (inputMessage st)] ++ streamed
       ++ match ending b with Done => [] | ReadRejected t => [errorEntry t] end
    /\ (length streamed <= 1)%nat
    /\ (chunks b = [] -> streamed = [])
    /\ (chunks b <> [] ->
        streamed = [mkMessage (lit "assistant") (concat (map decode (chunks b)))]).
Proof.
  intros Hin Hkey Hok Hbody.
  destruct (handleSubmit_stream response b st Hin Hkey Hok Hbody) as (st' & Hrun & Hm).
  exists st'. eexists. split; [done|]. split; [exact Hm|].
  destruct (chunks b); simpl; repeat split; try done; lia.
Qed.

(** C5: when the call fails before streaming, the transcript gains exactly
    the user entry and one error entry, whose content is "Error: " and the
    message; for a 401 without a JSON detail the message names the
    status. *)
Theorem handleSubmit_rejected_call net st :
  truthy (trim (inputMessage st)) = true ->
  isValidApiKey st = true ->
  failsBeforeStreaming net = true ->
  exists st' message,
    handleSubmit decode net st = Some (st', [chatRequest st])
    /\ messages st' =
       messages st ++ [mkMessage (lit "user") (inputMessage st);
                       mkMessage (lit "assistant") (lit "Error: " ++ message)]
    /\ (forall response,
          net = Resolved response -> status response = 401 ->
          json response = JsonValue None \/ (exists e, json response = JsonRejected e) ->
          message = lit "Server responded with status: 401").
Proof.
  intros Hin Hkey Hfail.
  rewrite (handleSubmit_accepted decode _ _ Hin Hkey).
  destruct net as [t|response]; cbn [chatTry mbind option_bind fst snd].
  - eexists. exists (messageOr (lit "Failed to process your request") t).
    split; [reflexivity|]. split; [|done].
    cbn [messages setIsLoading setMessages]. by rewrite <- app_assoc.
  - cbn [failsBeforeStreaming] in Hfail.
    destruct (ok response) eqn:Hok; cbn [negb orb] in *.
    + destruct (body response) eqn:Hb; [done|]. cbn [mbind option_bind fst snd].
      eexists. exists (lit "No reader available"). split; [reflexivity|].
      split; [cbn [messages setIsLoading setMessages]; by rewrite <- app_assoc|].
      intros r [= <-] H401. unfold ok in Hok. rewrite H401 in Hok. done.
    + destruct (json response) as [e|typeError|detail] eqn:Hj;
        cbn [mbind option_bind fst snd];
        eexists; eexists; (split; [reflexivity|]);
        (split; [cbn [messages setIsLoading setMessages errorEntry messageOr];
                 rewrite <- app_assoc; reflexivity|]);
        intros r [= <-] H401 Hd; try rewrite H401.
      * done.
      * destruct Hd as [Hd|[e Hd]]; rewrite Hd in Hj; done.
      * destruct Hd as [Hd|[e Hd]]; rewrite Hd in Hj; [|done].
        injection Hj as <-. done.
Qed.

End Submissions.

(** ** The key and its flag *)

(** A submission always completes: its stream loop starts from a transcript
    that ends with the user entry, so no update raises. *)
Lemma handleSubmit_total decode net st : is_Some (handleSubmit decode net st).
Proof.
  unfold handleSubmit. destruct (_ || _); [eauto|].
  cbn [messages setIsLoading setInputMessage setMessages].
  destruct net as [t|response]; cbn [chatTry mbind option_bind]; [eauto|].
  destruct (negb (ok response)).
  - destruct (json response); cbn [mbind option_bind]; eauto.
  - destruct (body response) as [b|]; [|cbn [mbind option_bind]; eauto].
    rewrite readLoop_submit. cbn [mbind option_bind]. eauto.
Qed.

Lemma handle_total decode ev st : is_Some (handle decode ev st).
Proof.
  destruct ev; cbn [handle]; eauto.
  destruct (handleSubmit_total decode net st) as [r ->]. eauto.
Qed.

Lemma run_total decode evs : forall st, is_Some (run decode evs st).
Proof.
  induction evs as [|ev evs IH]; intros st; cbn [run]; [eauto|].
  destruct (handle_total decode ev st) as [st' ->]. apply IH.
Qed.

Lemma keyChecked_handleSubmit decode net st r :
  keyChecked st -> handleSubmit decode net st = Some r -> keyChecked r.1.
Proof.
  unfold keyChecked, handleSubmit. intros Hk.
  destruct (_ || _); [by intros [= <-]|].
  destruct (chatTry _ _ _) as [[msgs thrown]|]; cbn [mbind option_bind]; [|done].
  by intros [= <-].
Qed.

Lemma keyChecked_handleFileUpload net statusNet st :
  keyChecked st -> keyChecked (handleFileUpload net statusNet st).1.
Proof.
  unfold keyChecked, handleFileUpload. intros Hk.
  destruct (pdfFile st) as [file|]; [|done].
  destruct (negb (isValidApiKey st)); [done|].
  destruct (uploadTry _ _ _ _) as [[st1 reqs] thrown] eqn:Ht.
  assert (Hst1 : isValidApiKey st1 = isValidApiKey st /\ apiKey st1 = apiKey st).
  { revert Ht. unfold uploadTry. destruct net as [t|response]; [by intros [= <- _ _]|].
    destruct (ok response), (json response); try by intros [= <- _ _].
    all: destruct statusNet as [[[] ?]|]; by intros [= <- _ _]. }
  destruct Hst1 as [Hv Ha].
  destruct thrown; cbn; by rewrite Hv, Ha.
Qed.

Lemma keyChecked_handle decode ev st st' :
  keyChecked st -> handle decode ev st = Some st' -> keyChecked st'.
Proof.
  intros Hk. destruct ev; cbn [handle].
  - intros [= <-]. by destruct statusNet as [[[] ?]|].
  - by intros [= <-].
  - by intros [= <-].
  - intros [= <-]. unfold handleFileChange.
    destruct file as [f|]; [|done]. by destruct (decide _).
  - intros [= <-]. by apply keyChecked_handleFileUpload.
  - destruct (handleSubmit _ _ _) as [r|] eqn:Hr; [|done].
    intros [= <-]. by apply (keyChecked_handleSubmit _ _ _ _ Hk Hr).
  - by intros [= <-].
  - by intros [= <-].
Qed.

Lemma keyChecked_run decode evs : forall st st',
  keyChecked st -> run decode evs st = Some st' -> keyChecked st'.
Proof.
  induction evs as [|ev evs IH]; intros st st' Hk; cbn [run].
  - by intros [= <-].
  - destruct (handle decode ev st) as [s|] eqn:He; cbn [mbind option_bind]; [|done].
    apply IH. exact (keyChecked_handle _ _ _ _ Hk He).
Qed.

(** ** The guards of a submission *)

Section Guards.

Variable decode : Uint8Array -> jsstring.

(** C6: submitting an input that is empty or made of whitespace only
    changes nothing and sends nothing. *)
Theorem handleSubmit_blank_noop net st :
  blank (inputMessage st) = true ->
  handleSubmit decode net st = Some (st, []).
Proof.
  intros Hblank. apply handleSubmit_rejected. left.
  by rewrite (trim_blank_nil _ Hblank).
Qed.

(** C7: a key shorter than 40 or with neither prefix is refused by
    [validateApiKey], and in every state the component reaches with such a
    key stored a submission changes nothing and sends nothing; a key with
    one of the prefixes and length at least 40 is accepted, and once it is
    entered a submission with a non-blank input sends its request. *)
Theorem validateApiKey_gate net key :
  ((jslength key < 40
    \/ (startsWith key (lit "sk-") = false /\ startsWith key (lit "sk-proj-") = false)) ->
   validateApiKey key = false
   /\ forall evs st,
        run decode evs initialState = Some st -> apiKey st = key ->
        handleSubmit decode net st = Some (st, []))
  /\ ((startsWith key (lit "sk-") = true \/ startsWith key (lit "sk-proj-") = true) ->
      40 <= jslength key ->
      validateApiKey key = true
      /\ forall st,
           blank (inputMessage st) = false ->
           exists st',
             handleSubmit decode net (handleApiKeyChange key st)
             = Some (st', [chatRequest (handleApiKeyChange key st)])).
Proof.
  split.
  - intros H.
    assert (Hv : validateApiKey key = false).
    { unfold validateApiKey. destruct H as [Hlen|[-> ->]]; [|done].
      apply andb_false_intro2. by apply N.leb_gt. }
    split; [done|]. intros evs st Hrun Hkey.
    apply handleSubmit_rejected. right.
    assert (Hk : keyChecked st) by (by apply (keyChecked_run decode evs initialState)).
    unfold keyChecked in Hk. by rewrite Hk, Hkey.
  - intros Hpre Hlen.
    assert (Hv : validateApiKey key = true).
    { unfold validateApiKey. apply andb_true_intro. split; [|by apply N.leb_le].
      destruct Hpre as [-> | ->]; [done|]. by rewrite orb_true_r. }
    split; [done|]. intros st Hin.
    destruct (handleSubmit_total decode net (handleApiKeyChange key st)) as [r Hr].
    rewrite handleSubmit_accepted in Hr; cycle 1.
    + cbn [handleApiKeyChange setIsValidApiKey setApiKey inputMessage].
      destruct (trim (inputMessage st)) eqn:Ht; [|done].
      apply trim_nil_blank in Ht. congruence.
    + done.
    + rewrite handleSubmit_accepted; cycle 1.
      * cbn [handleApiKeyChange setIsValidApiKey setApiKey inputMessage].
        destruct (trim (inputMessage st)) eqn:Ht; [|done].
        apply trim_nil_blank in Ht. congruence.
      * done.
      * destruct (chatTry _ _ _) as [r'|]; [|done]. cbn [mbind option_bind]. eauto.
Qed.

End Guards.

(** ** The stream loop, step by step *)

Section Steps.

Variable decode : Uint8Array -> jsstring.

(** C2, as amended: on a transcript that is not empty, the update puts
    the accumulated text into the last entry exactly when that entry has
    role assistant, whichever operation created it, and appends an
    assistant entry when the last entry has another role; this is the rule
    of the specification with every last entry counted as the session's
    own. *)
Theorem streamUpdater_by_role acc init lastMessage :
  (role lastMessage = lit "assistant" /\
   streamUpdater acc (init ++ [lastMessage])
   = Some (init ++ [mkMessage (lit "assistant") acc])
   \/
   role lastMessage <> lit "assistant" /\
   streamUpdater acc (init ++ [lastMessage])
   = Some ((init ++ [lastMessage]) ++ [mkMessage (lit "assistant") acc]))
  /\ streamUpdater acc (init ++ [lastMessage])
     = Some (specUpdater true acc (init ++ [lastMessage])).
Proof.
  rewrite streamUpdater_snoc. unfold specUpdater.
  rewrite last_snoc, andb_true_r.
  replace (length (init ++ [lastMessage]) - 1)%nat with (length init + 0)%nat
    by (rewrite length_app; simpl; lia).
  rewrite insert_app_r. cbn [insert list_insert].
  destruct (decide (role lastMessage = lit "assistant")) as [Hr|Hr].
  - rewrite bool_decide_true by done. split; [|done]. left. by rewrite Hr.
  - rewrite bool_decide_false by done. rewrite <- app_assoc. split; [|done].
    right. done.
Qed.

(** C8: at every point of the stream loop of a submission, the next chunk
    either appends one entry to the transcript or changes the content of
    its last entry only, to a text that extends the old content; the
    entries before stay as they are. *)
Theorem chunkStep_frame st processed value :
  exists s s',
    readLoop decode processed
      ([], appendMessage (mkMessage (lit "user") (inputMessage st)) (messages st))
    = Some s
    /\ chunkStep decode value s = Some s'
    /\ s'.1 = s.1 ++ decode value
    /\ (s'.2 = s.2 ++ [mkMessage (lit "assistant") s'.1]
        \/ exists init lastMessage,
             s.2 = init ++ [lastMessage]
             /\ s'.2 = init ++ [mkMessage (role lastMessage) s'.1]
             /\ content lastMessage `prefix_of` s'.1).
Proof.
  rewrite readLoop_submit.
  destruct processed as [|v vs]; eexists; eexists; (split; [reflexivity|]);
    cbn [fst snd].
  - rewrite chunkStep_snoc. rewrite decide_False by apply user_not_assistant.
    split; [reflexivity|]. cbn [fst snd]. split; [done|]. left.
    by rewrite <- app_assoc.
  - change (messages st ++ [?u; ?m]) with (messages st ++ [u] ++ [m]).
    rewrite app_assoc, chunkStep_snoc. cbn [role]. rewrite decide_True by done.
    split; [reflexivity|]. cbn [fst snd]. split; [done|]. right.
    eexists. eexists. split; [reflexivity|]. split; [done|].
    cbn [content]. by apply prefix_app_r.
Qed.

End Steps.

(** ** The roles in the transcript *)

Lemma rolesOk_append m prev :
  roleOk m = true -> rolesOk prev = true -> rolesOk (appendMessage m prev) = true.
Proof.
  intros Hm Hprev. unfold rolesOk, appendMessage in *.
  rewrite forallb_app, Hprev. simpl. by rewrite Hm.
Qed.

Lemma rolesOk_streamUpdater acc prev next :
  rolesOk prev = true -> streamUpdater acc prev = Some next -> rolesOk next = true.
Proof.
  destruct (decide (prev = [])) as [->|Hne]; [done|].
  destruct (exists_last Hne) as (init & lastMessage & ->).
  rewrite streamUpdater_snoc. unfold rolesOk. rewrite forallb_app.
  intros [Hinit Hlast]%andb_prop [= <-].
  cbn [forallb] in Hlast. rewrite andb_true_r in Hlast.
  destruct (decide _) as [Hr|Hr]; rewrite forallb_app, Hinit;
    cbn [forallb andb].
  - unfold roleOk. cbn [role]. rewrite Hr. done.
  - by rewrite Hlast.
Qed.

Lemma rolesOk_readLoop decode values : forall s s',
  rolesOk s.2 = true -> readLoop decode values s = Some s' -> rolesOk s'.2 = true.
Proof.
  induction values as [|value rest IH]; intros s s' Hs; cbn [readLoop].
  - by intros [= <-].
  - unfold chunkStep.
    destruct (streamUpdater _ _) as [msgs|] eqn:Hu; cbn [mbind option_bind]; [|done].
    apply IH. cbn [snd]. exact (rolesOk_streamUpdater _ _ _ Hs Hu).
Qed.

Lemma rolesOk_chatTry decode net msgs r :
  rolesOk msgs = true -> chatTry decode net msgs = Some r -> rolesOk r.1 = true.
Proof.
  intros Hm. unfold chatTry. destruct net as [t|response]; [by intros [= <-]|].
  destruct (negb (ok response)).
  - destruct (json response); by intros [= <-].
  - destruct (body response) as [b|]; [|by intros [= <-]].
    destruct (readLoop _ _ _) as [s|] eqn:Hl; cbn [mbind option_bind]; [|done].
    intros [= <-]. cbn [fst]. by apply (rolesOk_readLoop _ _ ([], msgs) _ Hm Hl).
Qed.

Lemma rolesOk_handleSubmit decode net st r :
  rolesOk (messages st) = true ->
  handleSubmit decode net st = Some r -> rolesOk (messages r.1) = true.
Proof.
  intros Hm. unfold handleSubmit.
  destruct (_ || _); [by intros [= <-]|].
  cbn [messages setIsLoading setInputMessage setMessages].
  destruct (chatTry _ _ _) as [[msgs thrown]|] eqn:Ht; cbn [mbind option_bind]; [|done].
  intros [= <-]. cbn [fst messages setIsLoading setMessages].
  apply rolesOk_chatTry in Ht; [|by apply rolesOk_append]. cbn [fst] in Ht.
  destruct thrown; [|done]. by apply rolesOk_append.
Qed.

Lemma messages_checkPdfStatus statusNet st :
  messages (checkPdfStatus statusNet st).1 = messages st.
Proof. destruct statusNet as [[[] ?]|]; done. Qed.

Lemma rolesOk_handleFileUpload net statusNet st :
  rolesOk (messages st) = true ->
  rolesOk (messages (handleFileUpload net statusNet st).1) = true.
Proof.
  intros Hm. unfold handleFileUpload.
  destruct (pdfFile st) as [file|]; [|done].
  destruct (negb (isValidApiKey st)); [done|].
  destruct (uploadTry _ _ _ _) as [[st' reqs] thrown] eqn:Ht.
  assert (Hst' : rolesOk (messages st') = true).
  { revert Ht. unfold uploadTry. destruct net as [t|response]; [by intros [= <- _ _]|].
    destruct (ok response), (json response); try by intros [= <- _ _].
    all: destruct (checkPdfStatus _ _) as [st2 reqs2] eqn:Hc; intros [= <- _ _];
      cbn [messages setMessages]; apply rolesOk_append; [done|];
      pose proof (messages_checkPdfStatus statusNet
                    (setChatMode rag (setIsUploading true st))) as Hmsg;
      rewrite Hc in Hmsg; cbn [fst] in Hmsg; by rewrite Hmsg. }
  cbn [fst messages clearFileInput setPdfFile setIsUploading].
  destruct thrown; [|done]. cbn [messages setMessages]. by apply rolesOk_append.
Qed.

Lemma rolesOk_handle decode ev st st' :
  rolesOk (messages st) = true ->
  handle decode ev st = Some st' -> rolesOk (messages st') = true.
Proof.
  intros Hs. destruct ev; cbn [handle].
  - intros [= <-]. by rewrite messages_checkPdfStatus.
  - by intros [= <-].
  - by intros [= <-].
  - intros [= <-]. unfold handleFileChange.
    destruct file as [f|]; [|done]. by destruct (decide _).
  - intros [= <-]. by apply rolesOk_handleFileUpload.
  - destruct (handleSubmit _ _ _) as [r|] eqn:Hr; [|done].
    intros [= <-]. by apply (rolesOk_handleSubmit _ _ _ _ Hs Hr).
  - by intros [= <-].
  - by intros [= <-].
Qed.

(** C9: every update of the transcript keeps all its roles in user and
    assistant, and so does every handler, hence every sequence of events;
    the transcript of the initial state has the property. *)
Theorem roles_preserved decode :
  (forall u prev next,
     rolesOk prev = true -> applyUpdate u prev = Some next -> rolesOk next = true)
  /\ (forall evs st st',
        rolesOk (messages st) = true -> run decode evs st = Some st' ->
        rolesOk (messages st') = true)
  /\ rolesOk (messages initialState) = true.
Proof.
  split; [|split; [|done]].
  - intros u prev next Hprev Hu.
    destruct u; cbn [applyUpdate] in Hu;
      try (injection Hu as <-; by apply rolesOk_append).
    + exact (rolesOk_streamUpdater _ _ _ Hprev Hu).
    + by injection Hu as <-.
  - induction evs as [|ev evs IH]; intros st st' Hs; cbn [run].
    + by intros [= <-].
    + destruct (handle decode ev st) as [s|] eqn:He; cbn [mbind option_bind]; [|done].
      apply IH. exact (rolesOk_handle _ _ _ _ Hs He).
Qed.

(** ** The upload *)

(** C10: an upload that passes the guard ends, whatever the network
    answers, with [isUploading] false, no selected file and an empty value
    in the file input; an upload stopped by the guard changes nothing and
    sends nothing. *)
Theorem handleFileUpload_cleanup net statusNet st :
  (forall file,
     pdfFile st = Some file -> isValidApiKey st = true ->
     let st' := (handleFileUpload net statusNet st).1 in
     isUploading st' = false
     /\ pdfFile st' = None
     /\ fileInputRef st' = ((fun _ => []) <$> fileInputRef st)
     /\ exists reqs,
          (handleFileUpload net statusNet st).2
          = UploadPdfRequest file (apiKey st) :: reqs)
  /\ (pdfFile st = None \/ isValidApiKey st = false ->
      handleFileUpload net statusNet st = (st, [])).
Proof.
  split.
  - intros file Hfile Hkey. unfold handleFileUpload. rewrite Hfile, Hkey. cbn [negb].
    destruct (uploadTry _ _ _ _) as [[st1 reqs] thrown] eqn:Ht.
    assert (Href : fileInputRef st1 = fileInputRef st).
    { revert Ht. unfold uploadTry. destruct net as [t|response]; [by intros [= <- _ _]|].
      destruct (ok response), (json response); try by intros [= <- _ _].
      all: destruct statusNet as [[[] ?]|]; by intros [= <- _ _]. }
    cbn [fst snd]. repeat split; [| eauto].
    cbn [fileInputRef clearFileInput setPdfFile setIsUploading].
    destruct thrown; cbn [fileInputRef setMessages]; rewrite Href;
      by destruct (fileInputRef st).
  - intros H. unfold handleFileUpload.
    destruct (pdfFile st); [|done]. destruct H as [?| ->]; done.
Qed.

(** ** The statements on concrete inputs *)

(** The transcript [uploadFailedMeanwhile] is what the two updates leave. *)
Example uploadFailedMeanwhile_arises :
  (applyUpdate (UserAppend (lit "q")) []
   ≫= applyUpdate (UploadErrorAppend (ErrorObject (lit "boom"))))
  = Some uploadFailedMeanwhile.
Proof. reflexivity. Qed.

(** The same transcript from the handlers: the user entry of a
    submission and the one chunk "Hi" of its reply, with the error entry of
    an upload queued in between.  The entry of the upload is gone. *)
Example upload_entry_overwritten :
  applyUpdates
    ([UserAppend (lit "q")]
     ++ [UploadErrorAppend (ErrorObject (lit "boom"))]
     ++ streamUpdates decodeAscii [] [bytes "Hi"])
    []
  = Some [mkMessage (lit "user") (lit "q"); mkMessage (lit "assistant") (lit "Hi")].
Proof. reflexivity. Qed.

(** A transcript cleared between the user entry and the first chunk: the
    update of the chunk reads the role of a missing entry and raises. *)
Example chunk_after_clear_raises :
  applyUpdates
    ([UserAppend (lit "q")] ++ [Clear] ++ streamUpdates decodeAscii [] [bytes "Hi"])
    []
  = None.
Proof. reflexivity. Qed.

(** C2 fails as stated: the first chunk of a reply finds, as last entry,
    the error entry that an upload left; the session has created no entry,
    so the entry is not its own and the rule of the specification appends;
    the code overwrites the content of the upload's entry. *)
Lemma streamUpdater_overwrites_foreign_entry :
  specUpdater false (lit "Hi") uploadFailedMeanwhile
  = uploadFailedMeanwhile ++ [mkMessage (lit "assistant") (lit "Hi")]
  /\ streamUpdater (lit "Hi") uploadFailedMeanwhile
     = Some [mkMessage (lit "user") (lit "q"); mkMessage (lit "assistant") (lit "Hi")]
  /\ streamUpdater (lit "Hi") uploadFailedMeanwhile
     <> Some (specUpdater false (lit "Hi") uploadFailedMeanwhile).
Proof.
  split; [reflexivity|]. split; [reflexivity|].
  intros H. vm_compute in H. discriminate H.
Qed.

Lemma handleSubmit_concatenates_witness :
  truthy (trim (inputMessage demoState)) = true
  /\ isValidApiKey demoState = true
  /\ exists st',
       handleSubmit decodeAscii
         (Resolved (streamOf [bytes "Hel"; bytes "lo, "; bytes "world!"] Done))
         demoState
       = Some (st', [chatRequest demoState])
       /\ messages st' =
          [mkMessage (lit "user") (lit "hi");
           mkMessage (lit "assistant") (lit "Hello, world!")].
Proof.
  split; [reflexivity|]. split; [reflexivity|].
  destruct (handleSubmit_concatenates decodeAscii
              (streamOf [bytes "Hel"; bytes "lo, "; bytes "world!"] Done)
              (mkBody [bytes "Hel"; bytes "lo, "; bytes "world!"] Done)
              (streamOf [bytes "Hello, "; bytes "world!"] Done)
              (mkBody [bytes "Hello, "; bytes "world!"] Done)
              demoState eq_refl eq_refl eq_refl eq_refl eq_refl
              ltac:(discriminate) eq_refl eq_refl eq_refl ltac:(discriminate))
    as (st' & st'' & Hrun & _ & _ & _ & Hhello).
  exists st'. split; [exact Hrun|]. exact (Hhello eq_refl).
Defined.

Lemma handleSubmit_midstream_failure_witness :
  truthy (trim (inputMessage demoState)) = true
  /\ isValidApiKey demoState = true
  /\ exists st',
       handleSubmit decodeAscii
         (Resolved (streamOf [bytes "Hel"; bytes "lo"]
                      (ReadRejected (ErrorObject (lit "network error")))))
         demoState
       = Some (st', [chatRequest demoState])
       /\ messages st' =
          [mkMessage (lit "user") (lit "hi");
           mkMessage (lit "assistant") (lit "Hello");
           mkMessage (lit "assistant") (lit "Error: network error")].
Proof.
  split; [reflexivity|]. split; [reflexivity|].
  exact (handleSubmit_midstream_failure decodeAscii
           (streamOf [bytes "Hel"; bytes "lo"]
              (ReadRejected (ErrorObject (lit "network error"))))
           (mkBody [bytes "Hel"; bytes "lo"]
              (ReadRejected (ErrorObject (lit "network error"))))
           (ErrorObject (lit "network error"))
           demoState eq_refl eq_refl eq_refl eq_refl eq_refl ltac:(discriminate)).
Defined.

Lemma handleSubmit_one_entry_witness :
  truthy (trim (inputMessage demoState)) = true
  /\ isValidApiKey demoState = true
  /\ exists st' streamed,
       handleSubmit decodeAscii
         (Resolved (streamOf [] (ReadRejected OtherValue))) demoState
       = Some (st', [chatRequest demoState])
       /\ messages st' =
          [mkMessage (lit "user") (lit "hi")] ++ streamed
          ++ [errorEntry OtherValue]
       /\ streamed = [].
Proof.
  split; [reflexivity|]. split; [reflexivity|].
  destruct (handleSubmit_one_entry decodeAscii
              (streamOf [] (ReadRejected OtherValue))
              (mkBody [] (ReadRejected OtherValue))
              demoState eq_refl eq_refl eq_refl eq_refl)
    as (st' & streamed & Hrun & Hm & _ & Hnone & _).
  exists st', streamed. split; [exact Hrun|]. split; [exact Hm|].
  exact (Hnone eq_refl).
Defined.

Lemma handleSubmit_rejected_call_witness :
  truthy (trim (inputMessage demoState)) = true
  /\ isValidApiKey demoState = true
  /\ failsBeforeStreaming (Resolved unauthorized) = true
  /\ exists st',
       handleSubmit decodeAscii (Resolved unauthorized) demoState
       = Some (st', [chatRequest demoState])
       /\ messages st' =
          [mkMessage (lit "user") (lit "hi");
           mkMessage (lit "assistant")
             (lit "Error: " ++ lit "Server responded with status: 401")].
Proof.
  split; [reflexivity|]. split; [reflexivity|]. split; [reflexivity|].
  destruct (handleSubmit_rejected_call decodeAscii (Resolved unauthorized) demoState
              eq_refl eq_refl eq_refl)
    as (st' & message & Hrun & Hm & H401).
  exists st'. split; [exact Hrun|].
  rewrite <- (H401 unauthorized eq_refl eq_refl (or_intror (ex_intro _ _ eq_refl))).
  exact Hm.
Defined.

Lemma handleSubmit_blank_noop_witness :
  blank (inputMessage (setInputMessage (lit "  ") demoState)) = true
  /\ handleSubmit decodeAscii (Resolved (streamOf [bytes "Hi"] Done))
       (setInputMessage (lit "  ") demoState)
     = Some (setInputMessage (lit "  ") demoState, []).
Proof.
  split; [reflexivity|].
  exact (handleSubmit_blank_noop decodeAscii (Resolved (streamOf [bytes "Hi"] Done))
           (setInputMessage (lit "  ") demoState) eq_refl).
Defined.

Lemma validateApiKey_gate_witness :
  (jslength (lit "sk-abc") < 40
   /\ validateApiKey (lit "sk-abc") = false
   /\ handleSubmit decodeAscii (Resolved (streamOf [bytes "Hi"] Done))
        (setInputMessage (lit "hi") (handleApiKeyChange (lit "sk-abc") initialState))
      = Some (setInputMessage (lit "hi")
                (handleApiKeyChange (lit "sk-abc") initialState), []))
  /\ (startsWith demoKey (lit "sk-proj-") = true
      /\ 40 <= jslength demoKey
      /\ validateApiKey demoKey = true).
Proof.
  split.
  - split; [reflexivity|].
    destruct (proj1 (validateApiKey_gate decodeAscii
                       (Resolved (streamOf [bytes "Hi"] Done)) (lit "sk-abc"))
                (or_introl eq_refl)) as [Hv Hsub].
    split; [exact Hv|].
    exact (Hsub [ApiKeyChange (lit "sk-abc"); InputChange (lit "hi")] _
             eq_refl eq_refl).
  - split; [reflexivity|]. split; [discriminate|].
    exact (proj1 (proj2 (validateApiKey_gate decodeAscii
                           (Resolved (streamOf [bytes "Hi"] Done)) demoKey)
                    (or_intror eq_refl) ltac:(discriminate))).
Defined.

Lemma roles_preserved_witness :
  rolesOk uploadFailedMeanwhile = true
  /\ (forall next,
        applyUpdate (StreamUpdate (lit "Hi")) uploadFailedMeanwhile = Some next ->
        rolesOk next = true)
  /\ (forall st',
        run decodeAscii
          [Submit (Resolved (streamOf [bytes "Hi"] Done));
           FileChange (Some demoFile);
           FileUpload (Rejected OtherValue) None]
          demoState = Some st' ->
        rolesOk (messages st') = true).
Proof.
  split; [reflexivity|]. split.
  - intros next.
    exact (proj1 (roles_preserved decodeAscii) (StreamUpdate (lit "Hi"))
             uploadFailedMeanwhile next eq_refl).
  - intros st'.
    exact (proj1 (proj2 (roles_preserved decodeAscii)) _ demoState st' eq_refl).
Defined.

Lemma handleFileUpload_cleanup_witness :
  pdfFile (handleFileChange (Some demoFile) demoState) = Some demoFile
  /\ isValidApiKey (handleFileChange (Some demoFile) demoState) = true
  /\ isUploading
       (handleFileUpload (Resolved unauthorized) None
          (handleFileChange (Some demoFile) demoState)).1 = false
  /\ pdfFile
       (handleFileUpload (Resolved unauthorized) None
          (handleFileChange (Some demoFile) demoState)).1 = None
  /\ handleFileUpload (Resolved unauthorized) None demoState = (demoState, []).
Proof.
  split; [reflexivity|]. split; [reflexivity|].
  destruct (proj1 (handleFileUpload_cleanup (Resolved unauthorized) None
                     (handleFileChange (Some demoFile) demoState))
              demoFile eq_refl eq_refl) as (Hu & Hf & _).
  split; [exact Hu|]. split; [exact Hf|].
  exact (proj2 (handleFileUpload_cleanup (Resolved unauthorized) None demoState)
           (or_introl eq_refl)).
Defined.

(** ** More on the key check *)

Lemma startsWith_app s p :
  startsWith s p = true <-> exists rest, s = p ++ rest.
Proof.
  revert s. induction p as [|c p IH]; intros s.
  - split; [intros _; by exists s|]. intros _. by destruct s.
  - destruct s as [|d s]; simpl.
    + split; [done|]. by intros [rest ?].
    + rewrite andb_true_iff, N.eqb_eq, IH. split.
      * intros [-> [rest ->]]. eauto.
      * intros [rest [= -> ->]]. eauto.
Qed.

(** X1: [validateApiKey] accepts exactly the strings that are "sk-"
    followed by at least 37 further code units, whatever they are; the test
    for "sk-proj-" changes nothing. *)
Theorem validateApiKey_characterised key :
  (validateApiKey key = true
   <-> exists rest, key = lit "sk-" ++ rest /\ (37 <= length rest)%nat)
  /\ validateApiKey key = startsWith key (lit "sk-") && (40 <=? jslength key).
Proof.
  assert (Hred : validateApiKey key
                 = startsWith key (lit "sk-") && (40 <=? jslength key)).
  { unfold validateApiKey. f_equal.
    destruct (startsWith key (lit "sk-proj-")) eqn:Hp.
    - by rewrite (startsWith_proj_sk _ Hp).
    - by rewrite orb_false_r. }
  split; [|done]. rewrite Hred, andb_true_iff, startsWith_app, N.leb_le.
  unfold jslength. split.
  - intros [[rest ->] Hlen]. exists rest. split; [done|].
    rewrite length_app in Hlen. change (length (lit "sk-")) with 3%nat in Hlen. lia.
  - intros (rest & -> & Hlen). split; [eauto|].
    rewrite length_app. change (length (lit "sk-")) with 3%nat. lia.
Qed.

(** ** More on the update of a chunk *)

(** X2: the update of a chunk raises exactly on the empty transcript. *)
Theorem streamUpdater_raises_iff_empty acc prev :
  streamUpdater acc prev = None <-> prev = [].
Proof.
  split; [|by intros ->].
  destruct (decide (prev = [])) as [|Hne]; [done|].
  destruct (streamUpdater_is_Some acc prev Hne) as [next ->]. done.
Qed.

(** X3: when the update of a chunk succeeds, the transcript ends with an
    assistant entry that holds the accumulated text, it has the old length
    or one entry more, and applying the same update again changes
    nothing. *)
Theorem streamUpdater_idempotent acc prev next :
  streamUpdater acc prev = Some next ->
  last next = Some (mkMessage (lit "assistant") acc)
  /\ (length next = length prev \/ length next = S (length prev))
  /\ streamUpdater acc next = Some next.
Proof.
  destruct (decide (prev = [])) as [->|Hne]; [done|].
  destruct (exists_last Hne) as (init & lastMessage & ->).
  rewrite streamUpdater_snoc. intros [= <-].
  destruct (decide (role lastMessage = lit "assistant")) as [Hr|Hr].
  - rewrite Hr, last_snoc, streamUpdater_snoc, !length_app.
    cbn [role]. rewrite decide_True by done. auto.
  - change (init ++ [lastMessage; ?m]) with (init ++ [lastMessage] ++ [m]).
    rewrite !app_assoc, last_snoc, streamUpdater_snoc, !length_app.
    cbn [role length]. rewrite decide_True by done. split; [done|].
    split; [right; lia|done].
Qed.

Lemma streamUpdater_idempotent_witness :
  streamUpdater (lit "Hi") uploadFailedMeanwhile
  = Some [mkMessage (lit "user") (lit "q"); mkMessage (lit "assistant") (lit "Hi")]
  /\ streamUpdater (lit "Hi")
       [mkMessage (lit "user") (lit "q"); mkMessage (lit "assistant") (lit "Hi")]
     = Some [mkMessage (lit "user") (lit "q"); mkMessage (lit "assistant") (lit "Hi")].
Proof.
  split; [reflexivity|].
  exact (proj2 (proj2 (streamUpdater_idempotent (lit "Hi") uploadFailedMeanwhile
                         _ eq_refl))).
Defined.

(** X4: the stream loop from any transcript that is not empty, whoever
    wrote its last entry: with at least one chunk it succeeds, it leaves
    every entry before the last as it was, and the transcript ends with one
    assistant entry that holds the accumulated text; a last entry with role
    assistant is taken over, any other last entry is kept. *)
Theorem readLoop_from_any_transcript decode values acc init lastMessage :
  values <> [] ->
  readLoop decode values (acc, init ++ [lastMessage])
  = Some (acc ++ textOf decode values,
          init
          ++ (if decide (role lastMessage = lit "assistant") then [] else [lastMessage])
          ++ [mkMessage (lit "assistant") (acc ++ textOf decode values)]).
Proof.
  destruct values as [|value rest]; [done|]. intros _.
  cbn [readLoop]. rewrite chunkStep_snoc. cbn [mbind option_bind].
  destruct (decide (role lastMessage = lit "assistant")) as [Hr|Hr].
  - rewrite Hr, readLoop_open. unfold textOf. cbn [map concat app].
    rewrite !app_assoc. destruct rest; [|done].
    cbn [map concat]. by rewrite !app_nil_r.
  - change (init ++ [lastMessage; ?m]) with (init ++ [lastMessage] ++ [m]).
    rewrite !app_assoc, readLoop_open. unfold textOf. cbn [map concat app].
    rewrite !app_assoc. destruct rest; [|done].
    cbn [map concat]. by rewrite !app_nil_r.
Qed.

Lemma readLoop_from_any_transcript_witness :
  [bytes "Hel"; bytes "lo"] <> []
  /\ readLoop decodeAscii [bytes "Hel"; bytes "lo"]
       ([], [mkMessage (lit "user") (lit "q")]
            ++ [uploadErrorEntry (ErrorObject (lit "boom"))])
     = Some (lit "Hello",
             [mkMessage (lit "user") (lit "q");
              mkMessage (lit "assistant") (lit "Hello")]).
Proof.
  split; [discriminate|].
  exact (readLoop_from_any_transcript decodeAscii [bytes "Hel"; bytes "lo"] []
           [mkMessage (lit "user") (lit "q")]
           (uploadErrorEntry (ErrorObject (lit "boom"))) ltac:(discriminate)).
Defined.

(** ** More on the handlers *)

Lemma checkPdfStatus_requests statusNet st :
  (checkPdfStatus statusNet st).2 = [PdfStatusRequest].
Proof. by destruct statusNet. Qed.

(** [handleFileUpload] past its guard, with the [try] block unfolded. *)
Lemma handleFileUpload_accepted file net statusNet st :
  pdfFile st = Some file -> isValidApiKey st = true ->
  if uploadSucceeds net then
    handleFileUpload net statusNet st
    = (clearFileInput
         (setPdfFile None
            (setIsUploading false
               (setMessages (appendMessage (uploadedEntry file))
                  (checkPdfStatus statusNet
                     (setChatMode rag (setIsUploading true st))).1))),
       [UploadPdfRequest file (apiKey st); PdfStatusRequest])
  else
    exists t,
      handleFileUpload net statusNet st
      = (clearFileInput
           (setPdfFile None
              (setIsUploading false
                 (setMessages (appendMessage (uploadErrorEntry t))
                    (setIsUploading true st)))),
         [UploadPdfRequest file (apiKey st)]).
Proof.
  intros Hfile Hkey. unfold handleFileUpload, uploadSucceeds, uploadTry.
  rewrite Hfile, Hkey. cbn [negb].
  destruct net as [t|response]; [by exists t|].
  destruct (ok response); cbn [andb].
  - destruct (json response) as [t| |]; [by exists t| |];
      pose proof (checkPdfStatus_requests statusNet
                    (setChatMode rag (setIsUploading true st))) as Hreq;
      destruct (checkPdfStatus _ _) as [st2 reqs2]; cbn [snd] in Hreq;
      by rewrite Hreq.
  - destruct (json response) as [t|typeError|detail]; eauto.
Qed.

Lemma checkPdfStatus_frame statusNet st :
  let st' := (checkPdfStatus statusNet st).1 in
  apiKey st' = apiKey st /\ messages st' = messages st
  /\ inputMessage st' = inputMessage st /\ isLoading st' = isLoading st
  /\ isValidApiKey st' = isValidApiKey st /\ pdfFile st' = pdfFile st
  /\ isUploading st' = isUploading st /\ fileInputRef st' = fileInputRef st
  /\ (chatMode st = rag -> chatMode st' = rag).
Proof. by destruct statusNet as [[[] ?]|]. Qed.

(** The [try] block of a submission never raises, keeps the transcript it
    starts from and adds at most one entry to it. *)
Lemma chatTry_submit decode net msgs text :
  exists streamed thrown,
    chatTry decode net (msgs ++ [mkMessage (lit "user") text])
    = Some ((msgs ++ [mkMessage (lit "user") text]) ++ streamed, thrown)
    /\ (length streamed <= 1)%nat.
Proof.
  assert (Hnone : forall thrown : option Thrown,
            exists streamed thrown',
              Some (msgs ++ [mkMessage (lit "user") text], thrown)
              = Some ((msgs ++ [mkMessage (lit "user") text]) ++ streamed, thrown')
              /\ (length streamed <= 1)%nat).
  { intros thrown. exists [], thrown. rewrite app_nil_r. split; [done|simpl; lia]. }
  destruct net as [t|response]; cbn [chatTry]; [apply Hnone|].
  destruct (ok response) eqn:Hok; cbn [negb].
  - destruct (body response) as [b|] eqn:Hb; [|apply Hnone].
    change (msgs ++ [mkMessage (lit "user") text])
      with (appendMessage (mkMessage (lit "user") text) msgs).
    rewrite readLoop_submit. cbn [mbind option_bind snd]. unfold appendMessage.
    destruct (chunks b); [apply Hnone|].
    eexists [_], _. rewrite <- app_assoc. split; [reflexivity|simpl; lia].
  - destruct (json response); apply Hnone.
Qed.

(** X5: an accepted submission, whatever the network answers, ends with
    [isLoading] false and an empty message field, sends exactly its one
    request, changes no other cell than the transcript, and leaves the old
    transcript followed by the user entry and at most two more entries. *)
Theorem handleSubmit_settles decode net st :
  truthy (trim (inputMessage st)) = true ->
  isValidApiKey st = true ->
  exists st' more,
    handleSubmit decode net st = Some (st', [chatRequest st])
    /\ isLoading st' = false /\ inputMessage st' = []
    /\ messages st' = messages st ++ [mkMessage (lit "user") (inputMessage st)] ++ more
    /\ (length more <= 2)%nat
    /\ apiKey st' = apiKey st /\ isValidApiKey st' = isValidApiKey st
    /\ pdfFile st' = pdfFile st /\ pdfStatus st' = pdfStatus st
    /\ isUploading st' = isUploading st /\ chatMode st' = chatMode st
    /\ fileInputRef st' = fileInputRef st.
Proof.
  intros Hin Hkey. rewrite (handleSubmit_accepted decode _ _ Hin Hkey).
  destruct (chatTry_submit decode net (messages st) (inputMessage st))
    as (streamed & thrown & -> & Hlen).
  cbn [mbind option_bind fst snd]. eexists.
  exists (streamed ++ match thrown with Some e => [errorEntry e] | None => [] end).
  split; [reflexivity|]. cbn. repeat split.
  - destruct thrown; rewrite <- ?app_assoc; [done|]. by rewrite app_nil_r.
  - rewrite length_app. destruct thrown; simpl; lia.
Qed.

Lemma handleSubmit_settles_witness :
  truthy (trim (inputMessage demoState)) = true
  /\ isValidApiKey demoState = true
  /\ exists st',
       handleSubmit decodeAscii (Rejected OtherValue) demoState
       = Some (st', [chatRequest demoState])
       /\ isLoading st' = false /\ inputMessage st' = [].
Proof.
  split; [reflexivity|]. split; [reflexivity|].
  destruct (handleSubmit_settles decodeAscii (Rejected OtherValue) demoState
              eq_refl eq_refl) as (st' & more & Hrun & Hl & Hi & _).
  exists st'. split; [exact Hrun|]. split; [exact Hl|exact Hi].
Defined.

(** X6: an upload past the guard appends exactly one entry and touches
    neither the key, its flag, the message field nor [isLoading].  When the
    response is ok and its JSON is read, the entry reports the success, the
    mode is rag whatever the status call returns, and the status call is
    the second and last request; otherwise the entry reports an error, the
    mode and the PDF status stay, and the upload is the only request. *)
Theorem handleFileUpload_reports_once file net statusNet st :
  pdfFile st = Some file -> isValidApiKey st = true ->
  let r := handleFileUpload net statusNet st in
  apiKey r.1 = apiKey st /\ isValidApiKey r.1 = isValidApiKey st
  /\ inputMessage r.1 = inputMessage st /\ isLoading r.1 = isLoading st
  /\ if uploadSucceeds net then
       messages r.1 = messages st ++ [uploadedEntry file]
       /\ chatMode r.1 = rag
       /\ r.2 = [UploadPdfRequest file (apiKey st); PdfStatusRequest]
     else
       (exists t, messages r.1 = messages st ++ [uploadErrorEntry t])
       /\ chatMode r.1 = chatMode st /\ pdfStatus r.1 = pdfStatus st
       /\ r.2 = [UploadPdfRequest file (apiKey st)].
Proof.
  intros Hfile Hkey r. subst r.
  pose proof (handleFileUpload_accepted file net statusNet st Hfile Hkey) as H.
  destruct (uploadSucceeds net).
  - rewrite H. cbn [fst snd].
    destruct (checkPdfStatus_frame statusNet (setChatMode rag (setIsUploading true st)))
      as (Ha & Hm & Hi & Hl & Hv & _ & _ & _ & Hc).
    cbn [apiKey isValidApiKey inputMessage isLoading messages chatMode
         clearFileInput setPdfFile setIsUploading setMessages].
    rewrite Ha, Hm, Hi, Hl, Hv, (Hc eq_refl). done.
  - destruct H as [t ->]. cbn. repeat split; eauto.
Qed.

Lemma handleFileUpload_reports_once_witness :
  pdfFile (handleFileChange (Some demoFile) demoState) = Some demoFile
  /\ isValidApiKey (handleFileChange (Some demoFile) demoState) = true
  /\ chatMode
       (handleFileUpload (Resolved (streamOf [] Done)) None
          (handleFileChange (Some demoFile) demoState)).1 = rag.
Proof.
  split; [reflexivity|]. split; [reflexivity|].
  exact (proj1 (proj2 (proj2 (proj2 (proj2 (proj2
           (handleFileUpload_reports_once demoFile (Resolved (streamOf [] Done)) None
              (handleFileChange (Some demoFile) demoState) eq_refl eq_refl))))))).
Defined.

(** ** What the handlers leave alone *)

Lemma handleSubmit_frame decode net st r :
  handleSubmit decode net st = Some r ->
  apiKey r.1 = apiKey st /\ isValidApiKey r.1 = isValidApiKey st
  /\ pdfFile r.1 = pdfFile st /\ pdfStatus r.1 = pdfStatus st
  /\ isUploading r.1 = isUploading st /\ chatMode r.1 = chatMode st
  /\ fileInputRef r.1 = fileInputRef st
  /\ messages st `prefix_of` messages r.1.
Proof.
  destruct (truthy (trim (inputMessage st))) eqn:Hin;
    [destruct (isValidApiKey st) eqn:Hkey|].
  - rewrite (handleSubmit_accepted decode _ _ Hin Hkey).
    destruct (chatTry_submit decode net (messages st) (inputMessage st))
      as (streamed & thrown & -> & _).
    cbn [mbind option_bind]. intros [= <-]. cbn.
    repeat split; try done.
    destruct thrown; rewrite <- ?app_assoc; by apply prefix_app_r.
  - rewrite handleSubmit_rejected by auto. intros [= <-]. cbn. repeat split; done.
  - rewrite handleSubmit_rejected by auto. intros [= <-]. cbn. repeat split; done.
Qed.

Lemma handleFileUpload_frame net statusNet st :
  let st' := (handleFileUpload net statusNet st).1 in
  apiKey st' = apiKey st /\ isValidApiKey st' = isValidApiKey st
  /\ (pdfFile st' = pdfFile st \/ pdfFile st' = None)
  /\ (chatMode st = rag -> chatMode st' = rag)
  /\ messages st `prefix_of` messages st'.
Proof.
  intros st'. subst st'.
  destruct (pdfFile st) as [file|] eqn:Hfile; cycle 1.
  { unfold handleFileUpload. rewrite Hfile. cbn. auto. }
  destruct (isValidApiKey st) eqn:Hkey; cycle 1.
  { unfold handleFileUpload. rewrite Hfile, Hkey. cbn. auto. }
  pose proof (handleFileUpload_accepted file net statusNet st Hfile Hkey) as H.
  destruct (uploadSucceeds net).
  - rewrite H. cbn [fst].
    destruct (checkPdfStatus_frame statusNet (setChatMode rag (setIsUploading true st)))
      as (Ha & Hm & _ & _ & Hv & _ & _ & _ & Hc).
    cbn [apiKey isValidApiKey pdfFile messages chatMode
         clearFileInput setPdfFile setIsUploading setMessages].
    rewrite Ha, Hm, Hv, (Hc eq_refl). cbn.
    repeat split; auto. by apply prefix_app_r.
  - destruct H as [t ->]. cbn. repeat split; auto.
    by apply prefix_app_r.
Qed.

Lemma handle_frame decode ev st st' :
  handle decode ev st = Some st' ->
  (pdfSelected st -> pdfSelected st')
  /\ (notModeButton ev = true -> chatMode st = rag -> chatMode st' = rag)
  /\ (notClearChat ev = true -> messages st `prefix_of` messages st').
Proof.
  destruct ev; cbn [handle notModeButton notClearChat].
  - intros [= <-].
    destruct (checkPdfStatus_frame statusNet st) as (_ & Hm & _ & _ & _ & Hf & _ & _ & Hc).
    unfold pdfSelected. rewrite Hf, Hm. auto.
  - intros [= <-]. auto.
  - intros [= <-]. auto.
  - intros [= <-]. unfold handleFileChange.
    destruct file as [f|]; [|auto].
    destruct (decide _) as [Hty|]; [|auto].
    split; [|auto]. intros _ f' [= <-]. done.
  - intros [= <-].
    destruct (handleFileUpload_frame net statusNet st) as (_ & _ & Hf & Hc & Hm).
    split; [|auto]. unfold pdfSelected. by destruct Hf as [-> | ->].
  - destruct (handleSubmit _ _ _) as [r|] eqn:Hr; [|done]. intros [= <-].
    destruct (handleSubmit_frame _ _ _ _ Hr) as (_ & _ & Hf & _ & _ & Hc & _ & Hm).
    unfold pdfSelected. rewrite Hf, Hc. auto.
  - intros [= <-]. split; [auto|]. split; [done|auto].
  - intros [= <-]. split; [auto|]. split; [auto|done].
Qed.

(** X7: after every sequence of events on the mounted page, the flag
    [isValidApiKey] is the check of the stored key, so the hint under the
    key field shows exactly when the stored key is not empty and fails the
    check. *)
Theorem isValidApiKey_tracks_key decode evs st :
  run decode evs initialState = Some st ->
  isValidApiKey st = validateApiKey (apiKey st)
  /\ keyErrorShown st = truthy (apiKey st) && negb (validateApiKey (apiKey st)).
Proof.
  intros Hrun.
  assert (Hk : keyChecked st) by (by apply (keyChecked_run decode evs initialState)).
  unfold keyErrorShown. by rewrite Hk.
Qed.

Lemma isValidApiKey_tracks_key_witness :
  exists st,
    run decodeAscii
      [ApiKeyChange demoKey; InputChange (lit "hi");
       Submit (Resolved unauthorized); ApiKeyChange (lit "sk-abc")]
      initialState = Some st
    /\ isValidApiKey st = validateApiKey (apiKey st).
Proof.
  eexists. split; [reflexivity|].
  exact (proj1 (isValidApiKey_tracks_key decodeAscii
                  [ApiKeyChange demoKey; InputChange (lit "hi");
                   Submit (Resolved unauthorized); ApiKeyChange (lit "sk-abc")]
                  _ eq_refl)).
Defined.

(** X8: no sequence of events without "Clear Chat" removes or rewrites an
    entry of the transcript it starts from: the old transcript is a prefix
    of the new one. *)
Theorem transcript_append_only decode evs : forall st st',
  forallb notClearChat evs = true ->
  run decode evs st = Some st' ->
  messages st `prefix_of` messages st'.
Proof.
  induction evs as [|ev evs IH]; intros st st'; cbn [run forallb].
  - by intros _ [= <-].
  - intros [Hev Hevs]%andb_prop.
    destruct (handle decode ev st) as [s|] eqn:He; cbn [mbind option_bind]; [|done].
    intros Hrun. destruct (handle_frame _ _ _ _ He) as (_ & _ & Hm).
    etrans; [exact (Hm Hev)|exact (IH _ _ Hevs Hrun)].
Qed.

Lemma transcript_append_only_witness :
  forallb notClearChat
    [Submit (Resolved (streamOf [bytes "Hi"] Done)); InputChange (lit "again");
     Submit (Resolved (streamOf [bytes "Yo"] Done))] = true
  /\ forall st',
       run decodeAscii
         [Submit (Resolved (streamOf [bytes "Hi"] Done)); InputChange (lit "again");
          Submit (Resolved (streamOf [bytes "Yo"] Done))]
         demoState = Some st' ->
       messages demoState `prefix_of` messages st'.
Proof.
  split; [reflexivity|]. intros st'.
  exact (transcript_append_only decodeAscii
           [Submit (Resolved (streamOf [bytes "Hi"] Done)); InputChange (lit "again");
            Submit (Resolved (streamOf [bytes "Yo"] Done))]
           demoState st' eq_refl).
Defined.

(** X9: after every sequence of events on the mounted page, the selected
    file has type application/pdf, and the upload request that
    [handleFileUpload] sends carries that file and the stored key, which
    passes [validateApiKey]. *)
Theorem upload_sends_checked_pdf decode evs st net statusNet file key :
  run decode evs initialState = Some st ->
  UploadPdfRequest file key ∈ (handleFileUpload net statusNet st).2 ->
  pdfFile st = Some file /\ type file = lit "application/pdf"
  /\ key = apiKey st /\ validateApiKey key = true.
Proof.
  intros Hrun Hreq.
  assert (Hk : keyChecked st) by (by apply (keyChecked_run decode evs initialState)).
  assert (Hp : pdfSelected st).
  { assert (Hinit : pdfSelected initialState) by (by intros f).
    revert Hinit Hrun. generalize initialState. clear.
    induction evs as [|ev evs IH]; intros s Hs; cbn [run]; [by intros [= <-]|].
    destruct (handle decode ev s) as [s'|] eqn:He; cbn [mbind option_bind]; [|done].
    apply IH. by apply (handle_frame _ _ _ _ He). }
  destruct (pdfFile st) as [f|] eqn:Hfile; cycle 1.
  { unfold handleFileUpload in Hreq. rewrite Hfile in Hreq. by apply elem_of_nil in Hreq. }
  destruct (isValidApiKey st) eqn:Hkey; cycle 1.
  { unfold handleFileUpload in Hreq. rewrite Hfile, Hkey in Hreq.
    by apply elem_of_nil in Hreq. }
  assert (Hin : UploadPdfRequest file key
                ∈ [UploadPdfRequest f (apiKey st); PdfStatusRequest]).
  { pose proof (handleFileUpload_accepted f net statusNet st Hfile Hkey) as H.
    destruct (uploadSucceeds net); [by rewrite H in Hreq|].
    destruct H as [t H]. rewrite H in Hreq. cbn [snd] in Hreq.
    apply list_elem_of_singleton in Hreq. rewrite Hreq. by left. }
  apply elem_of_cons in Hin as [[= -> ->]|Hin].
  - unfold keyChecked in Hk. rewrite <- Hk. auto.
  - apply list_elem_of_singleton in Hin. done.
Qed.

Lemma upload_sends_checked_pdf_witness :
  run decodeAscii [ApiKeyChange demoKey; FileChange (Some demoFile)] initialState
  = Some (handleFileChange (Some demoFile) (handleApiKeyChange demoKey initialState))
  /\ UploadPdfRequest demoFile demoKey
     ∈ (handleFileUpload (Rejected OtherValue) None
          (handleFileChange (Some demoFile)
             (handleApiKeyChange demoKey initialState))).2
  /\ validateApiKey demoKey = true.
Proof.
  split; [reflexivity|].
  assert (Hin : UploadPdfRequest demoFile demoKey
                ∈ (handleFileUpload (Rejected OtherValue) None
                     (handleFileChange (Some demoFile)
                        (handleApiKeyChange demoKey initialState))).2)
    by (apply list_elem_of_here).
  split; [exact Hin|].
  exact (proj2 (proj2 (proj2
           (upload_sends_checked_pdf decodeAscii
              [ApiKeyChange demoKey; FileChange (Some demoFile)] _
              (Rejected OtherValue) None demoFile demoKey eq_refl Hin)))).
Defined.

(** X10: once the page is in rag mode, only the mode buttons take it
    out: no status check, key or message edit, file choice, upload,
    submission or "Clear Chat" does. *)
Theorem rag_mode_sticky decode evs : forall st st',
  forallb notModeButton evs = true ->
  chatMode st = rag ->
  run decode evs st = Some st' ->
  chatMode st' = rag.
Proof.
  induction evs as [|ev evs IH]; intros st st'; cbn [run forallb].
  - by intros _ ? [= <-].
  - intros [Hev Hevs]%andb_prop Hrag.
    destruct (handle decode ev st) as [s|] eqn:He; cbn [mbind option_bind]; [|done].
    destruct (handle_frame _ _ _ _ He) as (_ & Hc & _).
    apply (IH _ _ Hevs). exact (Hc Hev Hrag).
Qed.

Lemma rag_mode_sticky_witness :
  forallb notModeButton
    [Mount None; Submit (Rejected OtherValue); ClearChat;
     FileUpload (Resolved unauthorized) None] = true
  /\ chatMode (setChatMode rag demoState) = rag
  /\ forall st',
       run decodeAscii
         [Mount None; Submit (Rejected OtherValue); ClearChat;
          FileUpload (Resolved unauthorized) None]
         (setChatMode rag demoState) = Some st' ->
       chatMode st' = rag.
Proof.
  split; [reflexivity|]. split; [reflexivity|]. intros st'.
  exact (rag_mode_sticky decodeAscii
           [Mount None; Submit (Rejected OtherValue); ClearChat;
            FileUpload (Resolved unauthorized) None]
           (setChatMode rag demoState) st' eq_refl eq_refl).
Defined.

(** ** The buttons and the guards *)

(** X11: no sequence of events, run one handler after the other, makes an
    update of the transcript raise: each stream loop starts after the user
    entry of its own submission, so the update of a chunk never meets an
    empty transcript. *)
Theorem events_never_raise decode evs st :
  exists st', run decode evs st = Some st'.
Proof. destruct (run_total decode evs st) as [st' H]. eauto. Qed.

(** X12: when the submit button is enabled, [handleSubmit] passes its guard
    and sends its request; when the button is disabled while no request is
    under way, [handleSubmit] does nothing.  The guard itself does not look
    at [isLoading]: with a valid key and a non-blank message it passes
    even while the button is disabled by a request under way. *)
Theorem submit_button_guard decode net st :
  (submitDisabled st = false ->
   exists st', handleSubmit decode net st = Some (st', [chatRequest st]))
  /\ (submitDisabled st = true -> isLoading st = false ->
      handleSubmit decode net st = Some (st, []))
  /\ (isValidApiKey st = true -> blank (inputMessage st) = false ->
      exists st', handleSubmit decode net st = Some (st', [chatRequest st])).
Proof.
  assert (Hacc : truthy (trim (inputMessage st)) = true -> isValidApiKey st = true ->
                 exists st', handleSubmit decode net st = Some (st', [chatRequest st])).
  { intros Hin Hkey. rewrite (handleSubmit_accepted decode _ _ Hin Hkey).
    destruct (chatTry_submit decode net (messages st) (inputMessage st))
      as (streamed & thrown & -> & _).
    cbn [mbind option_bind]. eauto. }
  unfold submitDisabled. split; [|split].
  - intros H. apply orb_false_elim in H as [H Hin].
    apply orb_false_elim in H as [Hkey _].
    apply negb_false_iff in Hin, Hkey. auto.
  - intros H Hl. rewrite Hl, orb_false_r in H. apply handleSubmit_rejected.
    apply orb_true_iff in H as [H|H]; apply negb_true_iff in H; auto.
  - intros Hkey Hin. apply Hacc; [|done].
    destruct (trim (inputMessage st)) eqn:Ht; [|done].
    apply trim_nil_blank in Ht. congruence.
Qed.

Lemma submit_button_guard_witness :
  submitDisabled demoState = false
  /\ (exists st',
        handleSubmit decodeAscii (Rejected OtherValue) demoState
        = Some (st', [chatRequest demoState]))
  /\ submitDisabled (setIsLoading true demoState) = true
  /\ (exists st',
        handleSubmit decodeAscii (Rejected OtherValue) (setIsLoading true demoState)
        = Some (st', [chatRequest (setIsLoading true demoState)])).
Proof.
  split; [reflexivity|]. split.
  - exact (proj1 (submit_button_guard decodeAscii (Rejected OtherValue) demoState)
             eq_refl).
  - split; [reflexivity|].
    exact (proj2 (proj2 (submit_button_guard decodeAscii (Rejected OtherValue)
                           (setIsLoading true demoState)))
             eq_refl eq_refl).
Defined.

(** X13: when the upload button is enabled, [handleFileUpload] passes its
    guard and its first request uploads the selected file with the stored
    key; when the button is disabled while no upload is under way,
    [handleFileUpload] does nothing. *)
Theorem upload_button_guard net statusNet st :
  (uploadDisabled st = false ->
   exists file st' reqs,
     pdfFile st = Some file
     /\ handleFileUpload net statusNet st
        = (st', UploadPdfRequest file (apiKey st) :: reqs))
  /\ (uploadDisabled st = true -> isUploading st = false ->
      handleFileUpload net statusNet st = (st, [])).
Proof.
  unfold uploadDisabled. split.
  - intros H. apply orb_false_elim in H as [H _].
    apply orb_false_elim in H as [Hfile Hkey]. apply negb_false_iff in Hkey.
    destruct (pdfFile st) as [file|] eqn:Hf; [|done].
    pose proof (handleFileUpload_accepted file net statusNet st Hf Hkey) as Hacc.
    destruct (uploadSucceeds net); [|destruct Hacc as [t Hacc]]; rewrite Hacc; eauto.
  - intros H Hu. rewrite Hu, orb_false_r in H. unfold handleFileUpload.
    destruct (pdfFile st); [|done]. cbn [orb] in H. by rewrite H.
Qed.

Lemma upload_button_guard_witness :
  uploadDisabled (handleFileChange (Some demoFile) demoState) = false
  /\ (exists file st' reqs,
        pdfFile (handleFileChange (Some demoFile) demoState) = Some file
        /\ handleFileUpload (Rejected OtherValue) None
             (handleFileChange (Some demoFile) demoState)
           = (st', UploadPdfRequest file
                     (apiKey (handleFileChange (Some demoFile) demoState)) :: reqs))
  /\ uploadDisabled demoState = true
  /\ handleFileUpload (Rejected OtherValue) None demoState = (demoState, []).
Proof.
  split; [reflexivity|]. split.
  - exact (proj1 (upload_button_guard (Rejected OtherValue) None
                    (handleFileChange (Some demoFile) demoState)) eq_refl).
  - split; [reflexivity|].
    exact (proj2 (upload_button_guard (Rejected OtherValue) None demoState)
             eq_refl eq_refl).
Defined.

(** X14: choosing a file that is not a PDF, or closing the dialog without
    a file, keeps the selection as it was; an upload that follows sends the
    PDF that was chosen before. *)
Theorem stale_selection_uploaded net statusNet st pdf other :
  type pdf = lit "application/pdf" ->
  (forall f, other = Some f -> type f <> lit "application/pdf") ->
  isValidApiKey st = true ->
  handleFileChange other (handleFileChange (Some pdf) st)
  = setPdfFile (Some pdf) st
  /\ exists st' reqs,
       handleFileUpload net statusNet
         (handleFileChange other (handleFileChange (Some pdf) st))
       = (st', UploadPdfRequest pdf (apiKey st) :: reqs).
Proof.
  intros Hpdf Hother Hkey.
  assert (Hsel : handleFileChange other (handleFileChange (Some pdf) st)
                 = setPdfFile (Some pdf) st).
  { unfold handleFileChange at 2. rewrite decide_True by done.
    unfold handleFileChange. destruct other as [f|]; [|done].
    by rewrite decide_False by (by apply Hother). }
  split; [done|]. rewrite Hsel.
  pose proof (handleFileUpload_accepted pdf net statusNet (setPdfFile (Some pdf) st)
                eq_refl Hkey) as Hacc.
  destruct (uploadSucceeds net); [|destruct Hacc as [t Hacc]]; rewrite Hacc; eauto.
Qed.

Lemma stale_selection_uploaded_witness :
  type demoFile = lit "application/pdf"
  /\ isValidApiKey demoState = true
  /\ exists st' reqs,
       handleFileUpload (Rejected OtherValue) None
         (handleFileChange (Some (mkFile (lit "a.txt") (lit "text/plain")))
            (handleFileChange (Some demoFile) demoState))
       = (st', UploadPdfRequest demoFile (apiKey demoState) :: reqs).
Proof.
  split; [reflexivity|]. split; [reflexivity|].
  refine (proj2 (stale_selection_uploaded (Rejected OtherValue) None demoState demoFile
                   (Some (mkFile (lit "a.txt") (lit "text/plain")))
                   eq_refl _ eq_refl)).
  intros f [= <-]. discriminate.
Defined.

(** ** The earlier page and the current one *)

(** X15: in the earlier page, a refused submission sends nothing, not even
    the health probe; an accepted submission whose probe fails sends the
    probe only, never the chat call, and the transcript gains the user
    entry and one error entry, which reads "Error: Backend server is not
    responding" when the probe was answered with a status outside
    200-299. *)
Theorem handleSubmitProbed_probe_fails decode healthNet net st :
  (truthy (trim (inputMessage st)) = false \/ isValidApiKey st = false ->
   handleSubmitProbed decode healthNet net st = Some (st, []))
  /\ (truthy (trim (inputMessage st)) = true -> isValidApiKey st = true ->
      probeFails healthNet = true ->
      exists st' t,
        handleSubmitProbed decode healthNet net st = Some (st', [HealthRequest])
        /\ messages st'
           = messages st ++ [mkMessage (lit "user") (inputMessage st); errorEntry t]
        /\ isLoading st' = false
        /\ (forall healthCheck,
              healthNet = Resolved healthCheck ->
              content (errorEntry t) = lit "Error: Backend server is not responding")).
Proof.
  unfold handleSubmitProbed. split.
  - intros H.
    replace (negb (truthy (trim (inputMessage st))) || negb (isValidApiKey st))
      with true; [done|].
    destruct H as [-> | ->]; [done|]. by rewrite orb_true_r.
  - intros -> -> Hfail. cbn [negb orb].
    destruct healthNet as [t|healthCheck]; cbn [probeFails] in Hfail.
    + cbn [mbind option_bind]. eexists. exists t. split; [reflexivity|].
      cbn. unfold appendMessage. rewrite <- app_assoc. done.
    + rewrite Hfail. cbn [mbind option_bind]. eexists.
      exists (ErrorObject (lit "Backend server is not responding")).
      split; [reflexivity|]. cbn. unfold appendMessage. rewrite <- app_assoc. done.
Qed.

Lemma handleSubmitProbed_probe_fails_witness :
  truthy (trim (inputMessage demoState)) = true
  /\ isValidApiKey demoState = true
  /\ probeFails (Resolved unauthorized) = true
  /\ exists st' t,
       handleSubmitProbed decodeAscii (Resolved unauthorized)
         (Resolved (streamOf [bytes "Hi"] Done)) demoState
       = Some (st', [HealthRequest])
       /\ messages st'
          = messages demoState
            ++ [mkMessage (lit "user") (inputMessage demoState); errorEntry t].
Proof.
  split; [reflexivity|]. split; [reflexivity|]. split; [reflexivity|].
  destruct (proj2 (handleSubmitProbed_probe_fails decodeAscii (Resolved unauthorized)
                     (Resolved (streamOf [bytes "Hi"] Done)) demoState)
              eq_refl eq_refl eq_refl) as (st' & t & Hrun & Hm & _).
  exists st', t. split; [exact Hrun|exact Hm].
Defined.

(** X16: in the earlier page, an accepted submission whose health probe
    is answered ok ends in the same state as a submission of the current
    page with the same answer to the chat call; it sends the probe and then
    the regular chat call. *)
Theorem handleSubmitProbed_agrees decode healthCheck net st :
  truthy (trim (inputMessage st)) = true -> isValidApiKey st = true ->
  ok healthCheck = true ->
  exists st',
    handleSubmit decode net st = Some (st', [chatRequest st])
    /\ handleSubmitProbed decode (Resolved healthCheck) net st
       = Some (st', [HealthRequest;
                     ChatCall (ChatRequest (lit "You are a helpful AI assistant.")
                                 (inputMessage st) (apiKey st))]).
Proof.
  intros Hin Hkey Hok. rewrite (handleSubmit_accepted decode _ _ Hin Hkey).
  unfold handleSubmitProbed. rewrite Hin, Hkey, Hok. cbn [negb orb].
  cbn [messages setIsLoading setInputMessage setMessages]. unfold appendMessage.
  destruct (chatTry_submit decode net (messages st) (inputMessage st))
    as (streamed & thrown & -> & _).
  cbn [mbind option_bind fst snd]. eexists. split; reflexivity.
Qed.

Lemma handleSubmitProbed_agrees_witness :
  truthy (trim (inputMessage demoState)) = true
  /\ isValidApiKey demoState = true
  /\ ok (streamOf [] Done) = true
  /\ exists st',
       handleSubmit decodeAscii (Resolved (streamOf [bytes "Hi"] Done)) demoState
       = Some (st', [chatRequest demoState])
       /\ handleSubmitProbed decodeAscii (Resolved (streamOf [] Done))
            (Resolved (streamOf [bytes "Hi"] Done)) demoState
          = Some (st', [HealthRequest;
                        ChatCall (ChatRequest (lit "You are a helpful AI assistant.")
                                    (inputMessage demoState) (apiKey demoState))]).
Proof.
  split; [reflexivity|]. split; [reflexivity|]. split; [reflexivity|].
  exact (handleSubmitProbed_agrees decodeAscii (streamOf [] Done)
           (Resolved (streamOf [bytes "Hi"] Done)) demoState eq_refl eq_refl eq_refl).
Defined.
